(** * Stock fundamentals: fetch, score, recommend

    A shallow embedding of [stock_fundamentals.py] and the properties of
    its scoring pipeline.

    - Python values are a small tagged union ([pyval]); floats are IEEE
      binary64 ([PrimFloat]), ints are unbounded ([Z]).
    - A Python [dict] with string keys is a [gmap string _].
    - Code that can raise runs in the [result] monad; the exceptions are
      the subclasses of [Exception] the pipeline can meet.
    - The market-data provider ([yf.Ticker(ticker).info]) is an external
      collaborator: a section variable.
    - Calls to [ic] only log and are left out.
    - The Streamlit page is the list of widgets it renders. *)

From Stdlib Require Import ZArith QArith Floats Lia.
From stdpp Require Import base option list gmap strings.

#[local] Set Warnings "-inexact-float".
#[local] Open Scope Z_scope.

(** ** Python values and exceptions *)

Inductive pyval : Type :=
| PyFloat (f : float)
| PyInt (z : Z)
| PyStr (s : string)
| PyNone.

Definition is_num (v : pyval) : bool :=
  match v with
  | PyFloat _ | PyInt _ => true
  | PyStr _ | PyNone => false
  end.

(** Subclasses of [Exception]; [ProviderError] stands for whatever the
    provider client raises (network failure, unknown ticker, malformed
    response). *)
Inductive exn : Type :=
| KeyError (key : string)
| TypeError
| ZeroDivisionError
| ProviderError (msg : string).

Inductive result (A : Type) : Type :=
| Ok (a : A)
| Raise (e : exn).
Arguments Ok {A} a.
Arguments Raise {A} e.

#[export] Instance result_ret : MRet result := λ A a, Ok a.
#[export] Instance result_bind : MBind result :=
  λ A B k r, match r with Ok a => k a | Raise e => Raise e end.

(** [try: body / except Exception as e: handler e] *)
Definition try_except {A} (body : result A) (handler : exn → result A) : result A :=
  match body with
  | Ok a => Ok a
  | Raise e => handler e
  end.

Definition returns {A} (r : result A) : Prop := ∃ a, r = Ok a.

(** ** Numbers *)

(** [float(z)]: the binary64 nearest to [z] (ties to even). *)
Definition float_of_Z (z : Z) : float :=
  SF2Prim (binary_normalize prec emax z 0 false).

(** Python orders an int against a float by their exact values; a NaN is
    unordered.  [Z_compare_SF z x] compares [z] with [x]. *)
Definition Z_compare_SF (z : Z) (x : spec_float) : option comparison :=
  match x with
  | S754_nan => None
  | S754_infinity s => Some (if s then Gt else Lt)
  | S754_zero _ => Some (z ?= 0)
  | S754_finite s m e =>
      let mz := if s then Z.neg m else Z.pos m in
      Some (if 0 <=? e then z ?= mz * 2 ^ e else z * 2 ^ (- e) ?= mz)
  end.

Definition Z_compare_float (z : Z) (x : float) : option comparison :=
  Z_compare_SF z (Prim2SF x).

Definition cmp_is (c : comparison) (o : option comparison) : bool :=
  match o, c with
  | Some Lt, Lt | Some Eq, Eq | Some Gt, Gt => true
  | _, _ => false
  end.

Definition cmp_in (c1 c2 : comparison) (o : option comparison) : bool :=
  cmp_is c1 o || cmp_is c2 o.

(** [a < b]; two strs are ordered as Python orders them, code point by
    code point, which on UTF-8 bytes is the byte order. *)
Definition py_lt (a b : pyval) : result bool :=
  match a, b with
  | PyFloat x, PyFloat y => Ok (x <? y)%float
  | PyInt x, PyInt y => Ok (x <? y)
  | PyInt x, PyFloat y => Ok (cmp_is Lt (Z_compare_float x y))
  | PyFloat x, PyInt y => Ok (cmp_is Gt (Z_compare_float y x))
  | PyStr x, PyStr y => Ok (cmp_is Lt (Some (String.compare x y)))
  | _, _ => Raise TypeError
  end.

(** [a <= b] *)
Definition py_le (a b : pyval) : result bool :=
  match a, b with
  | PyFloat x, PyFloat y => Ok (x <=? y)%float
  | PyInt x, PyInt y => Ok (x <=? y)
  | PyInt x, PyFloat y => Ok (cmp_in Lt Eq (Z_compare_float x y))
  | PyFloat x, PyInt y => Ok (cmp_in Gt Eq (Z_compare_float y x))
  | PyStr x, PyStr y => Ok (cmp_in Lt Eq (Some (String.compare x y)))
  | _, _ => Raise TypeError
  end.

(** [a > b] and [a >= b]: for the built-in types these are the reflected
    [b < a] and [b <= a]. *)
Definition py_gt (a b : pyval) : result bool := py_lt b a.
Definition py_ge (a b : pyval) : result bool := py_le b a.

(** [a * b] on numbers; an int operand of a float product is converted
    with [float(_)] (every int the program multiplies is a small literal). *)
Definition py_mul (a b : pyval) : result pyval :=
  match a, b with
  | PyFloat x, PyFloat y => Ok (PyFloat (x * y)%float)
  | PyInt x, PyInt y => Ok (PyInt (x * y))
  | PyFloat x, PyInt y => Ok (PyFloat (x * float_of_Z y)%float)
  | PyInt x, PyFloat y => Ok (PyFloat (float_of_Z x * y)%float)
  | _, _ => Raise TypeError
  end.

(** [a / b] on ints: true division gives a float, the correctly rounded
    quotient.  For operands below [2^53] in magnitude, which is all the
    scorer divides (a sum of six scores by a length), both conversions
    are exact and the binary64 division is that quotient. *)
Definition int_truediv (a b : Z) : result float :=
  if b =? 0 then Raise ZeroDivisionError
  else Ok (float_of_Z a / float_of_Z b)%float.

(** ** Dictionaries *)

(** [d[k]] *)
Definition getitem {V} (d : gmap string V) (k : string) : result V :=
  match d !! k with
  | Some v => Ok v
  | None => Raise (KeyError k)
  end.

(** [d.get(k, dflt)] *)
Definition dict_get {V} (d : gmap string V) (k : string) (dflt : V) : V :=
  default dflt (d !! k).

(** [sum(d.values())] on a dict of ints *)
Definition sum_values (d : gmap string Z) : Z :=
  foldr Z.add 0 (snd <$> map_to_list d).

(** [len(d)] *)
Definition len {V} (d : gmap string V) : Z := Z.of_nat (size d).

(** ** Friendly labels

    The two label tables, in source order; their keys are the field
    names of a MetricSet and the categories of a ScoreSet. *)

Definition METRIC_LABELS : list (string * string) :=
  [ ("pe_ratio", "P/E Ratio (Price to Earnings)");
    ("pb_ratio", "P/B Ratio (Price to Book)");
    ("debt_to_equity", "Debt to Equity Ratio");
    ("current_ratio", "Current Ratio (Liquidity)");
    ("profit_margin", "Profit Margins");
    ("market_cap", "Market Capitalization");
    ("dividend_yield", "Dividend Yield") ]%string.

Definition SCORE_LABELS : list (string * string) :=
  [ ("pe", "Price to Earnings Analysis");
    ("pb", "Price to Book Analysis");
    ("debt", "Debt Level Analysis");
    ("liquidity", "Liquidity Analysis");
    ("profitability", "Profitability Analysis");
    ("size", "Company Size Analysis") ]%string.

(** ** Constants for analysis thresholds *)

Definition GOOD_PE_RATIO : pyval := PyFloat 15.0.
Definition GOOD_PB_RATIO : pyval := PyFloat 3.0.
Definition GOOD_DEBT_TO_EQUITY : pyval := PyFloat 2.0.
Definition GOOD_CURRENT_RATIO : pyval := PyFloat 1.5.
Definition GOOD_PROFIT_MARGIN : pyval := PyFloat 0.10.
Definition MIN_MARKET_CAP : pyval := PyInt 1000000000.

(** [float('inf')] *)
Definition float_inf : pyval := PyFloat infinity.

(** ** The fetcher *)

Section Pipeline.

(** [yf.Ticker(ticker).info]: the provider's record for a ticker, or
    the exception the client raised. *)
Variable provider_info : string → result (gmap string pyval).

Definition get_fundamental_data (ticker : string) : result (gmap string pyval) :=
  try_except
    (info ← provider_info ticker;
     mret (list_to_map
       [ ("pe_ratio"%string, dict_get info "forwardPE" float_inf);
         ("pb_ratio"%string, dict_get info "priceToBook" float_inf);
         ("debt_to_equity"%string, dict_get info "debtToEquity" float_inf);
         ("current_ratio"%string, dict_get info "currentRatio" (PyFloat 0.0));
         ("profit_margin"%string, dict_get info "profitMargins" (PyFloat 0.0));
         ("market_cap"%string, dict_get info "marketCap" (PyFloat 0.0));
         ("dividend_yield"%string, dict_get info "dividendYield" (PyFloat 0.0)) ]))
    (λ e, Ok ∅).

(** ** The scorer

    Each conditional expression of the source is one definition; a
    score is a Python int, [1] for good, [0] for neutral, [-1] for bad. *)

(** Lines 66-67. *)
Definition score_pe (metrics : gmap string pyval) : result Z :=
  v ← getitem metrics "pe_ratio";
  good ← py_lt v GOOD_PE_RATIO;
  if good : bool then mret 1
  else
    v' ← getitem metrics "pe_ratio";
    limit ← py_mul GOOD_PE_RATIO (PyInt 2);
    bad ← py_gt v' limit;
    mret (if bad : bool then -1 else 0).

(** Lines 69-70. *)
Definition score_pb (metrics : gmap string pyval) : result Z :=
  v ← getitem metrics "pb_ratio";
  good ← py_lt v GOOD_PB_RATIO;
  if good : bool then mret 1
  else
    v' ← getitem metrics "pb_ratio";
    limit ← py_mul GOOD_PB_RATIO (PyInt 2);
    bad ← py_gt v' limit;
    mret (if bad : bool then -1 else 0).

(** Lines 72-73. *)
Definition score_debt (metrics : gmap string pyval) : result Z :=
  v ← getitem metrics "debt_to_equity";
  good ← py_lt v GOOD_DEBT_TO_EQUITY;
  if good : bool then mret 1
  else
    v' ← getitem metrics "debt_to_equity";
    limit ← py_mul GOOD_DEBT_TO_EQUITY (PyFloat 1.5);
    bad ← py_gt v' limit;
    mret (if bad : bool then -1 else 0).

(** Lines 75-76. *)
Definition score_liquidity (metrics : gmap string pyval) : result Z :=
  v ← getitem metrics "current_ratio";
  good ← py_gt v GOOD_CURRENT_RATIO;
  if good : bool then mret 1
  else
    v' ← getitem metrics "current_ratio";
    bad ← py_lt v' (PyFloat 1.0);
    mret (if bad : bool then -1 else 0).

(** Lines 78-79. *)
Definition score_profitability (metrics : gmap string pyval) : result Z :=
  v ← getitem metrics "profit_margin";
  good ← py_gt v GOOD_PROFIT_MARGIN;
  if good : bool then mret 1
  else
    v' ← getitem metrics "profit_margin";
    bad ← py_lt v' (PyInt 0);
    mret (if bad : bool then -1 else 0).

(** Line 81. *)
Definition score_size (metrics : gmap string pyval) : result Z :=
  v ← getitem metrics "market_cap";
  big ← py_gt v MIN_MARKET_CAP;
  mret (if big : bool then 1 else -1).

Definition calculate_fundamental_score (metrics : gmap string pyval)
  : result (float * gmap string Z) :=
  let scores : gmap string Z := ∅ in
  s ← score_pe metrics;
  let scores := <["pe" := s]> scores in
  s ← score_pb metrics;
  let scores := <["pb" := s]> scores in
  s ← score_debt metrics;
  let scores := <["debt" := s]> scores in
  s ← score_liquidity metrics;
  let scores := <["liquidity" := s]> scores in
  s ← score_profitability metrics;
  let scores := <["profitability" := s]> scores in
  s ← score_size metrics;
  let scores := <["size" := s]> scores in
  total_score ← int_truediv (sum_values scores) (len scores);
  mret (total_score, scores).

(** ** The recommender *)

Definition get_recommendation (score : pyval) : result string :=
  buy ← py_ge score (PyFloat 0.5);
  if buy : bool then mret "BUY"%string
  else
    sell ← py_le score (PyFloat (-0.3));
    if sell : bool then mret "SELL"%string
    else mret "HOLD"%string.

(** ** The orchestrator *)

(** The dict [analyze_stock] returns, with its five fixed keys. *)
Record AnalysisResult : Type := {
  ticker : string;
  metrics : gmap string pyval;
  scores : gmap string Z;
  overall_score : float;
  recommendation : string
}.

(** [None] is Python's [None]; [not metrics] holds of the empty dict
    only. *)
Definition analyze_stock (ticker : string) : result (option AnalysisResult) :=
  metrics ← get_fundamental_data ticker;
  if (size metrics =? 0)%nat then mret None
  else
    '(overall_score, individual_scores) ← calculate_fundamental_score metrics;
    recommendation ← get_recommendation (PyFloat overall_score);
    mret (Some {| ticker := ticker;
                  metrics := metrics;
                  scores := individual_scores;
                  overall_score := overall_score;
                  recommendation := recommendation |}).

End Pipeline.

(** ** Well-formed input and the spec's rules *)

Definition METRIC_FIELDS : list string := METRIC_LABELS.*1.

Definition SCORE_CATEGORIES : gset string := list_to_set (SCORE_LABELS.*1).

(** A MetricSet: each of the seven named fields is present and holds a
    number (a float or an int). *)
Definition well_formed (m : gmap string pyval) : bool :=
  forallb (λ k, match m !! k with Some v => is_num v | None => false end)
          METRIC_FIELDS.

(** The value of a field of a MetricSet. *)
Definition field (m : gmap string pyval) (k : string) : pyval :=
  default PyNone (m !! k).

(** The order of Python numbers as a boolean ([false] where Python would
    raise, which it does not on two numbers). *)
Definition num_lt (a b : pyval) : bool :=
  match py_lt a b with Ok r => r | Raise _ => false end.
Definition num_le (a b : pyval) : bool :=
  match py_le a b with Ok r => r | Raise _ => false end.

(** The rule form of the specification: 1 on the good condition, -1 on
    the bad condition, else 0. *)
Definition lower_is_better (good bad x : pyval) : Z :=
  if num_lt x good then 1 else if num_lt bad x then -1 else 0.
Definition higher_is_better (good bad x : pyval) : Z :=
  if num_lt good x then 1 else if num_lt x bad then -1 else 0.

(** The table of the specification's section 4.2, row by row, with the
    thresholds as the specification writes them (not as the source
    computes them). *)
Definition spec_pe : pyval → Z := lower_is_better (PyFloat 15.0) (PyFloat 30.0).
Definition spec_pb : pyval → Z := lower_is_better (PyFloat 3.0) (PyFloat 6.0).
Definition spec_debt : pyval → Z := lower_is_better (PyFloat 2.0) (PyFloat 3.0).
Definition spec_liquidity : pyval → Z := higher_is_better (PyFloat 1.5) (PyFloat 1.0).
Definition spec_profitability : pyval → Z := higher_is_better (PyFloat 0.10) (PyFloat 0.0).
Definition spec_size (x : pyval) : Z :=
  if num_lt (PyInt 1000000000) x then 1 else -1.

(** The six scores of a ScoreSet in the order the scorer writes them. *)
Definition score_set (pe pb debt liquidity profitability size : Z) : gmap string Z :=
  <["size" := size]> (<["profitability" := profitability]>
  (<["liquidity" := liquidity]> (<["debt" := debt]>
  (<["pb" := pb]> (<["pe" := pe]> ∅))))).

Definition ternary (s : Z) : Prop := s = -1 ∨ s = 0 ∨ s = 1.

(** The exact rational value of a finite float. *)
Definition float_to_Q (x : float) : option Q :=
  match Prim2SF x with
  | S754_zero _ => Some 0%Q
  | S754_finite s m e =>
      let mz := if s then Z.neg m else Z.pos m in
      Some (if 0 <=? e then inject_Z (mz * 2 ^ e) else Qmake mz (2 ^ Z.to_pos (- e)))
  | S754_infinity _ | S754_nan => None
  end.

(** A MetricSet literal. *)
Definition metric_set (pe pb de cr pm mc dy : pyval) : gmap string pyval :=
  list_to_map
    [ ("pe_ratio"%string, pe); ("pb_ratio"%string, pb);
      ("debt_to_equity"%string, de); ("current_ratio"%string, cr);
      ("profit_margin"%string, pm); ("market_cap"%string, mc);
      ("dividend_yield"%string, dy) ].

(** The provider's names of the seven fields. *)
Definition PROVIDER_FIELDS : list string :=
  [ "forwardPE"; "priceToBook"; "debtToEquity"; "currentRatio";
    "profitMargins"; "marketCap"; "dividendYield" ]%string.

(** A provider record as the specification has it: every field it
    exposes holds a number; any field may be missing. *)
Definition provider_numeric (info : gmap string pyval) : bool :=
  forallb (λ k, match info !! k with Some v => is_num v | None => true end)
          PROVIDER_FIELDS.

(** The MetricSet the fetcher builds from a provider record. *)
Definition fetched (info : gmap string pyval) : gmap string pyval :=
  metric_set (dict_get info "forwardPE" float_inf)
             (dict_get info "priceToBook" float_inf)
             (dict_get info "debtToEquity" float_inf)
             (dict_get info "currentRatio" (PyFloat 0.0))
             (dict_get info "profitMargins" (PyFloat 0.0))
             (dict_get info "marketCap" (PyFloat 0.0))
             (dict_get info "dividendYield" (PyFloat 0.0)).

(** Scorer, then recommender, then the assembled result. *)
Definition score_and_assemble (ticker : string) (m : gmap string pyval)
  : result (option AnalysisResult) :=
  '(o, s) ← calculate_fundamental_score m;
  r ← get_recommendation (PyFloat o);
  mret (Some {| ticker := ticker; metrics := m; scores := s;
                overall_score := o; recommendation := r |}).

(** [sum / 6] in binary64. *)
Definition mean6 (sum : Z) : float := (float_of_Z sum / 6)%float.

(** Half a unit in the last place of a binary64 in [[1/2, 1]]. *)
Definition half_ulp : Q := 1 # 2 ^ 54.

(** [o] is within [half_ulp] of the rational [sum / 6]. *)
Definition is_mean6 (sum : Z) (o : float) : Prop :=
  ∃ q, float_to_Q o = Some q ∧
       ((sum # 6) - half_ulp <= q)%Q ∧ (q <= (sum # 6) + half_ulp)%Q.

Definition is_mean6b (sum : Z) (o : float) : bool :=
  match float_to_Q o with
  | Some q => Qle_bool ((sum # 6) - half_ulp) q && Qle_bool q ((sum # 6) + half_ulp)
  | None => false
  end.

(** A MetricSet in the neutral band of every category. *)
Definition neutral_metrics : gmap string pyval :=
  metric_set (PyFloat 20) (PyFloat 4.5) (PyFloat 2.5) (PyFloat 1.2)
             (PyFloat 0.05) (PyInt 1000000000) (PyFloat 0.01).

(** The two end-to-end scenarios of the specification; the dividend
    yield is not given there and is left arbitrary. *)
Definition strong_metrics (dy : pyval) : gmap string pyval :=
  metric_set (PyFloat 10) (PyFloat 2) (PyFloat 1) (PyFloat 2) (PyFloat 0.2)
             (PyFloat 5e9) dy.

Definition weak_metrics (dy : pyval) : gmap string pyval :=
  metric_set (PyFloat 50) (PyFloat 10) (PyFloat 5) (PyFloat 0.5)
             (PyFloat (-0.1)) (PyFloat 5e8) dy.

(** A provider that knows one ticker and fails on the others. *)
Definition one_ticker_provider (t : string) : result (gmap string pyval) :=
  if String.eqb t "ACME"
  then Ok (<["forwardPE" := PyFloat 12.5]> (<["marketCap" := PyInt 2500000000]> ∅))
  else Raise (ProviderError "no such ticker").

(** ** Outcomes of the scorer and of the pipeline *)

(** The six fields the scorer reads, in the order it reads them, and the
    provider's names for them. *)
Definition SCORED_FIELDS : list string :=
  [ "pe_ratio"; "pb_ratio"; "debt_to_equity"; "current_ratio";
    "profit_margin"; "market_cap" ]%string.

Definition SCORED_PROVIDER_FIELDS : list string :=
  [ "forwardPE"; "priceToBook"; "debtToEquity"; "currentRatio";
    "profitMargins"; "marketCap" ]%string.

(** What is wrong with field [k] of [m], if anything: it is missing, or
    it holds something that is not a number. *)
Definition offence (m : gmap string pyval) (k : string) : option exn :=
  match m !! k with
  | None => Some (KeyError k)
  | Some v => if is_num v then None else Some TypeError
  end.

(** The outcome of one conditional expression of the scorer. *)
Definition field_outcome (k : string) (rule : pyval → Z) (m : gmap string pyval)
  : result Z :=
  match m !! k with
  | None => Raise (KeyError k)
  | Some v => if is_num v then Ok (rule v) else Raise TypeError
  end.

(** The offence of the first scored field that has one. *)
Definition first_offence (m : gmap string pyval) : option exn :=
  foldr (λ k rest, match offence m k with Some e => Some e | None => rest end)
        None SCORED_FIELDS.

(** Every scored field the provider record has holds a number. *)
Definition provider_scorable (info : gmap string pyval) : bool :=
  forallb (λ k, match info !! k with Some v => is_num v | None => true end)
          SCORED_PROVIDER_FIELDS.

(** The recommendation as a function of the sum of the six scores. *)
Definition recommend_sum (sum : Z) : string :=
  if 3 <=? sum then "BUY" else if sum <=? -2 then "SELL" else "HOLD".

(** The three labels from worst to best. *)
Definition label_rank (label : string) : Z :=
  if String.eqb label "BUY" then 1
  else if String.eqb label "SELL" then -1 else 0.

(** [x <= y] for two numbers of the same kind: two floats (neither a
    NaN) or two ints. *)
Definition num_le_same (x y : pyval) : bool :=
  match x, y with
  | PyFloat a, PyFloat b => (a <=? b)%float
  | PyInt a, PyInt b => a <=? b
  | _, _ => false
  end.

(** [m2] is no worse than [m1] in any scored field: no higher in the
    three ratios where lower is better, no lower in the other three. *)
Definition no_worse (m1 m2 : gmap string pyval) : bool :=
  num_le_same (field m2 "pe_ratio") (field m1 "pe_ratio") &&
  num_le_same (field m2 "pb_ratio") (field m1 "pb_ratio") &&
  num_le_same (field m2 "debt_to_equity") (field m1 "debt_to_equity") &&
  num_le_same (field m1 "current_ratio") (field m2 "current_ratio") &&
  num_le_same (field m1 "profit_margin") (field m2 "profit_margin") &&
  num_le_same (field m1 "market_cap") (field m2 "market_cap").

(** ** The Streamlit page

    Streamlit is an external collaborator: a call that renders is
    recorded as a [widget], in order; a script that raises keeps what it
    rendered before.  The state of the two input widgets is given from
    outside: the text typed in the field ([None] while untouched, when
    [st.text_input] returns its default) and whether the button was
    clicked in this run.  [str.upper], the [:.2f] format and the order in
    which Python iterates over a dict (insertion order, which a [gmap]
    does not record) are parameters. *)

Inductive widget : Type :=
| st_title (body : string)
| st_text_input (label value : string)
| st_button (label : string)
| st_header (body : string)
| st_subheader (body : string)
| st_metric (label value : string)
| st_table (data : list (string * list pyval))
| st_error (body : string).

Definition page (A : Type) : Type := (list widget * result A)%type.

#[export] Instance page_ret : MRet page := λ A a, ([], Ok a).
#[export] Instance page_bind : MBind page :=
  λ A B k p,
    match p with
    | (ws, Ok a) => let '(ws', r) := k a in (ws ++ ws', r)
    | (ws, Raise e) => (ws, Raise e)
    end.

Definition render (w : widget) : page unit := ([w], Ok tt).
Definition run {A} (r : result A) : page A := ([], r).

(** [[f(x) for x in l]] *)
Fixpoint comprehension {A B} (f : A → result B) (l : list A) : result (list B) :=
  match l with
  | [] => Ok []
  | x :: l => y ← f x; ys ← comprehension f l; Ok (y :: ys)
  end.

(** [LABELS[key]] on one of the two label tables. *)
Definition label_getitem (labels : list (string * string)) (key : string)
  : result string :=
  getitem (list_to_map labels : gmap string string) key.

Section Page.

Variable provider_info : string → result (gmap string pyval).
Variable str_upper : string → string.
Variable format_2f : float → string.
Variable dict_items : ∀ V, gmap string V → list (string * V).

(** [d.keys()] and [list(d.values())] *)
Definition dict_keys {V} (d : gmap string V) : list string := (dict_items V d).*1.
Definition dict_values {V} (d : gmap string V) : list V := (dict_items V d).*2.

Definition create_streamlit_ui (typed : option string) (clicked : bool)
  : page unit :=
  _ ← render (st_title "Stock Fundamental Analysis");
  text ← (([st_text_input "Enter Stock Ticker:" "AAPL"],
           Ok (default "AAPL"%string typed)) : page string);
  let ticker := str_upper text in
  pressed ← (([st_button "Analyze"], Ok clicked) : page bool);
  if pressed : bool then
    results ← run (analyze_stock provider_info ticker);
    match results with
    | Some results =>
        _ ← render (st_header ("Analysis Results for " ++ ticker));
        _ ← render (st_subheader ("Recommendation: " ++ recommendation results));
        _ ← render (st_metric "Overall Score" (format_2f (overall_score results)));
        _ ← render (st_subheader "Fundamental Metrics");
        metric_names ← run (comprehension (label_getitem METRIC_LABELS)
                                          (dict_keys (metrics results)));
        let metrics_df :=
          [ ("Metric"%string, PyStr <$> metric_names);
            ("Value"%string, dict_values (metrics results)) ] in
        _ ← render (st_table metrics_df);
        _ ← render (st_subheader "Individual Scores");
        score_names ← run (comprehension (label_getitem SCORE_LABELS)
                                         (dict_keys (scores results)));
        let scores_df :=
          [ ("Analysis Type"%string, PyStr <$> score_names);
            ("Score"%string, PyInt <$> dict_values (scores results)) ] in
        render (st_table scores_df)
    | None => render (st_error ("Could not fetch data for " ++ ticker))
    end
  else mret tt.

End Page.

(** The label a table gives a key (the empty string for a key it lacks). *)
Definition label_of (labels : list (string * string)) (key : string) : string :=
  default ""%string ((list_to_map labels : gmap string string) !! key).

(** A run of the page under the map's own iteration order and the
    identity for the two string functions, for examples. *)
Definition example_page (provider_info : string → result (gmap string pyval))
  (typed : option string) (clicked : bool) : page unit :=
  create_streamlit_ui provider_info (λ s, s) (λ _, "0.00"%string)
    (λ V, map_to_list) typed clicked.

(** The fork of the orchestrator as the specification words it, with no
    condition on what the provider record holds: an absent result when
    the fetcher yields no data, an assembled result whenever it yields
    some. *)
Definition fork_as_stated
  (provider_info : string → result (gmap string pyval)) (t : string) : Prop :=
  ∀ m, get_fundamental_data provider_info t = Ok m →
       if (size m =? 0)%nat
       then analyze_stock provider_info t = Ok None
       else ∃ r, analyze_stock provider_info t = Ok (Some r).

(** A provider whose record exposes the forward P/E with no number in it. *)
Definition none_pe_provider (t : string) : result (gmap string pyval) :=
  Ok {[ "forwardPE"%string := PyNone ]}.

(** * Properties *)

(** ** Numbers *)

Lemma py_lt_num a b :
  is_num a = true → is_num b = true → py_lt a b = Ok (num_lt a b).
Proof. destruct a, b; simpl; intros; try discriminate; reflexivity. Qed.

Lemma py_le_num a b :
  is_num a = true → is_num b = true → py_le a b = Ok (num_le a b).
Proof. destruct a, b; simpl; intros; try discriminate; reflexivity. Qed.

Lemma py_gt_num a b :
  is_num a = true → is_num b = true → py_gt a b = Ok (num_lt b a).
Proof. intros; apply py_lt_num; assumption. Qed.

Lemma py_ge_num a b :
  is_num a = true → is_num b = true → py_ge a b = Ok (num_le b a).
Proof. intros; apply py_le_num; assumption. Qed.

Lemma limit_pe : py_mul GOOD_PE_RATIO (PyInt 2) = Ok (PyFloat 30.0).
Proof. vm_compute. reflexivity. Qed.

Lemma limit_pb : py_mul GOOD_PB_RATIO (PyInt 2) = Ok (PyFloat 6.0).
Proof. vm_compute. reflexivity. Qed.

Lemma limit_debt : py_mul GOOD_DEBT_TO_EQUITY (PyFloat 1.5) = Ok (PyFloat 3.0).
Proof. vm_compute. reflexivity. Qed.

(** Against a number, the int [0] and the float [0.0] are the same bound. *)
Lemma num_lt_zero x : num_lt x (PyInt 0) = num_lt x (PyFloat 0.0).
Proof.
  destruct x as [f|z| |]; try reflexivity.
  unfold num_lt, py_lt, Z_compare_float. rewrite ltb_spec.
    change (Prim2SF 0%float) with (S754_zero false).
    destruct (Prim2SF f) as [[]|[]| |s m e]; try reflexivity.
    unfold Z_compare_SF, SFltb, SFcompare.
    destruct s; destruct (0 <=? e) eqn:He; cbn [cmp_is];
      match goal with
      | |- context [?a ?= ?b] => destruct (Z.compare_spec a b) as [H|H|H]
      end; try reflexivity; exfalso;
      try (assert (0 < 2 ^ e) by (apply Z.pow_pos_nonneg; lia)); nia.
Qed.

(** ** Running the monad *)

Lemma bind_Ok {A B} (a : A) (k : A → result B) : (Ok a ≫= k) = k a.
Proof. reflexivity. Qed.

Lemma bind_Ok_inv {A B} (r : result A) (k : A → result B) (b : B) :
  (r ≫= k) = Ok b → ∃ a, r = Ok a ∧ k a = Ok b.
Proof. destruct r as [a|e]; [eauto | discriminate]. Qed.

Lemma getitem_Some {V} (d : gmap string V) k v :
  d !! k = Some v → getitem d k = Ok v.
Proof. unfold getitem. intros ->. reflexivity. Qed.

Ltac in_list :=
  repeat first [apply list_elem_of_here | apply list_elem_of_further].

Ltac metric_field := unfold METRIC_FIELDS, METRIC_LABELS; cbn [fmap list_fmap fst]; in_list.

Ltac provider_field := unfold PROVIDER_FIELDS; in_list.

Ltac run_score Hm Hv :=
  rewrite ?(getitem_Some _ _ _ Hm), ?limit_pe, ?limit_pb, ?limit_debt;
  unfold GOOD_PE_RATIO, GOOD_PB_RATIO, GOOD_DEBT_TO_EQUITY, GOOD_CURRENT_RATIO,
    GOOD_PROFIT_MARGIN, MIN_MARKET_CAP;
  repeat (rewrite ?bind_Ok;
          rewrite ?py_lt_num, ?py_gt_num by (exact Hv || reflexivity));
  repeat match goal with
         | |- context [if ?b then _ else _] => destruct b
         end;
  reflexivity.

(** ** The scorer on a MetricSet *)

Lemma well_formed_lookup m k :
  well_formed m = true → k ∈ METRIC_FIELDS →
  m !! k = Some (field m k) ∧ is_num (field m k) = true.
Proof.
  unfold well_formed, field. rewrite forallb_forall. intros H Hk.
  specialize (H k). rewrite <- list_elem_of_In in H. specialize (H Hk).
  destruct (m !! k); [split; [reflexivity | exact H] | discriminate].
Qed.

Lemma score_pe_num m v :
  m !! "pe_ratio" = Some v → is_num v = true → score_pe m = Ok (spec_pe v).
Proof.
  intros Hm Hv. unfold score_pe, spec_pe, lower_is_better. run_score Hm Hv.
Qed.

Lemma score_pb_num m v :
  m !! "pb_ratio" = Some v → is_num v = true → score_pb m = Ok (spec_pb v).
Proof.
  intros Hm Hv. unfold score_pb, spec_pb, lower_is_better. run_score Hm Hv.
Qed.

Lemma score_debt_num m v :
  m !! "debt_to_equity" = Some v → is_num v = true →
  score_debt m = Ok (spec_debt v).
Proof.
  intros Hm Hv. unfold score_debt, spec_debt, lower_is_better. run_score Hm Hv.
Qed.

Lemma score_liquidity_num m v :
  m !! "current_ratio" = Some v → is_num v = true →
  score_liquidity m = Ok (spec_liquidity v).
Proof.
  intros Hm Hv. unfold score_liquidity, spec_liquidity, higher_is_better.
  run_score Hm Hv.
Qed.

Lemma score_profitability_num m v :
  m !! "profit_margin" = Some v → is_num v = true →
  score_profitability m = Ok (spec_profitability v).
Proof.
  intros Hm Hv.
  unfold score_profitability, spec_profitability, higher_is_better.
  rewrite <- num_lt_zero. run_score Hm Hv.
Qed.

Lemma score_size_num m v :
  m !! "market_cap" = Some v → is_num v = true →
  score_size m = Ok (spec_size v).
Proof.
  intros Hm Hv. unfold score_size, spec_size. run_score Hm Hv.
Qed.

(** Every rule of the table yields a ternary score; size is never 0. *)
Lemma lower_is_better_ternary g b x : ternary (lower_is_better g b x).
Proof.
  unfold lower_is_better, ternary.
  destruct (num_lt x g); [| destruct (num_lt b x)]; lia.
Qed.

Lemma higher_is_better_ternary g b x : ternary (higher_is_better g b x).
Proof.
  unfold higher_is_better, ternary.
  destruct (num_lt g x); [| destruct (num_lt x b)]; lia.
Qed.

Lemma spec_size_binary x : spec_size x = 1 ∨ spec_size x = -1.
Proof. unfold spec_size. destruct (num_lt _ x); lia. Qed.

(** ** Sum, length and mean of a ScoreSet *)

(** Folding over the values of a ScoreSet visits the six scores once
    each; with [Z.add] the order does not matter. *)
Lemma foldr_score_set (f : Z → Z → Z) s1 s2 s3 s4 s5 s6 :
  foldr f 0 (snd <$> map_to_list (score_set s1 s2 s3 s4 s5 s6)) =
  f s6 (f s4 (f s3 (f s1 (f s5 (f s2 0))))).
Proof. vm_compute. reflexivity. Qed.

Lemma sum_values_score_set s1 s2 s3 s4 s5 s6 :
  sum_values (score_set s1 s2 s3 s4 s5 s6) = s1 + s2 + s3 + s4 + s5 + s6.
Proof. unfold sum_values. rewrite foldr_score_set. lia. Qed.

Lemma len_score_set s1 s2 s3 s4 s5 s6 : len (score_set s1 s2 s3 s4 s5 s6) = 6.
Proof. vm_compute. reflexivity. Qed.

Lemma dom_score_set s1 s2 s3 s4 s5 s6 :
  dom (score_set s1 s2 s3 s4 s5 s6) = SCORE_CATEGORIES.
Proof.
  unfold score_set, SCORE_CATEGORIES, SCORE_LABELS.
  cbn [fmap list_fmap fst list_to_set]. rewrite !dom_insert_L, dom_empty_L.
  set_solver.
Qed.

Lemma lookup_score_set s1 s2 s3 s4 s5 s6 :
  let s := score_set s1 s2 s3 s4 s5 s6 in
  s !! "pe" = Some s1 ∧ s !! "pb" = Some s2 ∧ s !! "debt" = Some s3 ∧
  s !! "liquidity" = Some s4 ∧ s !! "profitability" = Some s5 ∧
  s !! "size" = Some s6.
Proof. vm_compute. repeat split. Qed.

Lemma score_set_values s1 s2 s3 s4 s5 s6 k v :
  score_set s1 s2 s3 s4 s5 s6 !! k = Some v →
  v = s1 ∨ v = s2 ∨ v = s3 ∨ v = s4 ∨ v = s5 ∨ v = s6.
Proof.
  unfold score_set. intros H.
  repeat (apply lookup_insert_Some in H as [[_ <-]|[_ H]]; [tauto |]).
  rewrite lookup_empty in H. discriminate.
Qed.

Lemma int_truediv_6 a : int_truediv a 6 = Ok (mean6 a).
Proof. reflexivity. Qed.

Lemma is_mean6b_true sum o : is_mean6b sum o = true → is_mean6 sum o.
Proof.
  unfold is_mean6b, is_mean6. destruct (float_to_Q o) as [q|]; [| discriminate].
  intros [H1 H2]%andb_prop. exists q.
  split; [reflexivity |]. split; apply Qle_bool_iff; assumption.
Qed.

Lemma sum_range s1 s2 s3 s4 s5 s6 :
  ternary s1 → ternary s2 → ternary s3 → ternary s4 → ternary s5 → ternary s6 →
  -6 ≤ s1 + s2 + s3 + s4 + s5 + s6 ≤ 6.
Proof. unfold ternary. lia. Qed.

Lemma range_cases s :
  -6 ≤ s ≤ 6 →
  s ∈ [-6; -5; -4; -3; -2; -1; 0; 1; 2; 3; 4; 5; 6].
Proof.
  intros H. rewrite !elem_of_cons.
  assert (s = -6 ∨ s = -5 ∨ s = -4 ∨ s = -3 ∨ s = -2 ∨ s = -1 ∨ s = 0 ∨
          s = 1 ∨ s = 2 ∨ s = 3 ∨ s = 4 ∨ s = 5 ∨ s = 6) by lia.
  tauto.
Qed.

(** The mean of six ternary scores lies in [[-1, 1]] and is the rounded
    quotient. *)
Lemma mean6_range s :
  -6 ≤ s ≤ 6 →
  (-1 <=? mean6 s)%float = true ∧ (mean6 s <=? 1)%float = true ∧
  is_mean6 s (mean6 s).
Proof.
  intros H%range_cases.
  repeat (apply elem_of_cons in H as [->|H];
          [repeat split; try apply is_mean6b_true; vm_compute; reflexivity |]).
  inversion H.
Qed.

(** ** The scorer, end to end *)

Lemma calculate_ok_inv m o s :
  calculate_fundamental_score m = Ok (o, s) →
  ∃ s1 s2 s3 s4 s5 s6,
    score_pe m = Ok s1 ∧ score_pb m = Ok s2 ∧ score_debt m = Ok s3 ∧
    score_liquidity m = Ok s4 ∧ score_profitability m = Ok s5 ∧
    score_size m = Ok s6 ∧
    s = score_set s1 s2 s3 s4 s5 s6 ∧
    o = mean6 (s1 + s2 + s3 + s4 + s5 + s6).
Proof.
  unfold calculate_fundamental_score. intros H.
  apply bind_Ok_inv in H as (s1 & H1 & H).
  apply bind_Ok_inv in H as (s2 & H2 & H).
  apply bind_Ok_inv in H as (s3 & H3 & H).
  apply bind_Ok_inv in H as (s4 & H4 & H).
  apply bind_Ok_inv in H as (s5 & H5 & H).
  apply bind_Ok_inv in H as (s6 & H6 & H).
  change (<["size":=s6]> _) with (score_set s1 s2 s3 s4 s5 s6) in H.
  rewrite sum_values_score_set, len_score_set, int_truediv_6, bind_Ok in H.
  injection H as <- <-. exists s1, s2, s3, s4, s5, s6. tauto.
Qed.

Lemma calculate_ok m s1 s2 s3 s4 s5 s6 :
  score_pe m = Ok s1 → score_pb m = Ok s2 → score_debt m = Ok s3 →
  score_liquidity m = Ok s4 → score_profitability m = Ok s5 →
  score_size m = Ok s6 →
  calculate_fundamental_score m =
    Ok (mean6 (s1 + s2 + s3 + s4 + s5 + s6), score_set s1 s2 s3 s4 s5 s6).
Proof.
  intros H1 H2 H3 H4 H5 H6. unfold calculate_fundamental_score.
  rewrite H1, bind_Ok, H2, bind_Ok, H3, bind_Ok, H4, bind_Ok, H5, bind_Ok,
    H6, bind_Ok.
  change (<["size":=s6]> _) with (score_set s1 s2 s3 s4 s5 s6).
  rewrite sum_values_score_set, len_score_set, int_truediv_6. reflexivity.
Qed.

Lemma calculate_well_formed m :
  well_formed m = true →
  calculate_fundamental_score m =
    Ok (mean6 (spec_pe (field m "pe_ratio") + spec_pb (field m "pb_ratio") +
               spec_debt (field m "debt_to_equity") +
               spec_liquidity (field m "current_ratio") +
               spec_profitability (field m "profit_margin") +
               spec_size (field m "market_cap")),
        score_set (spec_pe (field m "pe_ratio")) (spec_pb (field m "pb_ratio"))
                  (spec_debt (field m "debt_to_equity"))
                  (spec_liquidity (field m "current_ratio"))
                  (spec_profitability (field m "profit_margin"))
                  (spec_size (field m "market_cap"))).
Proof.
  intros Hwf.
  destruct (well_formed_lookup m "pe_ratio" Hwf) as [? ?]; [metric_field |].
  destruct (well_formed_lookup m "pb_ratio" Hwf) as [? ?]; [metric_field |].
  destruct (well_formed_lookup m "debt_to_equity" Hwf) as [? ?]; [metric_field |].
  destruct (well_formed_lookup m "current_ratio" Hwf) as [? ?]; [metric_field |].
  destruct (well_formed_lookup m "profit_margin" Hwf) as [? ?]; [metric_field |].
  destruct (well_formed_lookup m "market_cap" Hwf) as [? ?]; [metric_field |].
  apply calculate_ok;
    auto using score_pe_num, score_pb_num, score_debt_num,
      score_liquidity_num, score_profitability_num, score_size_num.
Qed.

(** ** The recommender *)

Lemma get_recommendation_float f :
  get_recommendation (PyFloat f) =
  Ok (if (0.5 <=? f)%float then "BUY"
      else if (f <=? -0.3)%float then "SELL" else "HOLD")%string.
Proof.
  unfold get_recommendation, py_ge, py_le. rewrite bind_Ok.
  destruct (0.5 <=? f)%float; [reflexivity |].
  rewrite bind_Ok. destruct (f <=? -0.3)%float; reflexivity.
Qed.

(** The two cutoffs do not overlap: a score at or below [-0.3] is not at
    or above [0.5]. *)
Lemma sell_not_buy f : (f <=? -0.3)%float = true → (0.5 <=? f)%float = false.
Proof.
  rewrite !leb_spec.
  destruct (Prim2SF f) as [[]|[]| |[] m e]; intros H;
    first [reflexivity | discriminate H].
Qed.

Lemma get_recommendation_num v :
  is_num v = true → returns (get_recommendation v).
Proof.
  intros Hv. unfold get_recommendation, returns.
  rewrite py_ge_num, bind_Ok by (exact Hv || reflexivity).
  destruct (num_le _ v); [eexists; reflexivity |].
  rewrite py_le_num, bind_Ok by (exact Hv || reflexivity).
  destruct (num_le v _); eexists; reflexivity.
Qed.

(** ** The fetcher and the orchestrator *)

Lemma lookup_metric_set pe pb de cr pm mc dy :
  let m := metric_set pe pb de cr pm mc dy in
  m !! "pe_ratio" = Some pe ∧ m !! "pb_ratio" = Some pb ∧
  m !! "debt_to_equity" = Some de ∧ m !! "current_ratio" = Some cr ∧
  m !! "profit_margin" = Some pm ∧ m !! "market_cap" = Some mc ∧
  m !! "dividend_yield" = Some dy.
Proof. vm_compute. repeat split. Qed.

Lemma size_metric_set pe pb de cr pm mc dy :
  size (metric_set pe pb de cr pm mc dy) = 7%nat.
Proof. vm_compute. reflexivity. Qed.

Lemma size_fetched info : size (fetched info) = 7%nat.
Proof. unfold fetched. apply size_metric_set. Qed.

Lemma well_formed_metric_set pe pb de cr pm mc dy :
  is_num pe = true → is_num pb = true → is_num de = true →
  is_num cr = true → is_num pm = true → is_num mc = true →
  is_num dy = true →
  well_formed (metric_set pe pb de cr pm mc dy) = true.
Proof.
  intros H1 H2 H3 H4 H5 H6 H7.
  destruct (lookup_metric_set pe pb de cr pm mc dy)
    as (E1 & E2 & E3 & E4 & E5 & E6 & E7).
  unfold well_formed, METRIC_FIELDS, METRIC_LABELS.
  cbn [forallb fmap list_fmap fst].
  rewrite E1, E2, E3, E4, E5, E6, E7, H1, H2, H3, H4, H5, H6, H7. reflexivity.
Qed.

Lemma dict_get_num (info : gmap string pyval) k dflt :
  provider_numeric info = true → k ∈ PROVIDER_FIELDS → is_num dflt = true →
  is_num (dict_get info k dflt) = true.
Proof.
  unfold provider_numeric, dict_get. rewrite forallb_forall. intros H Hk Hd.
  specialize (H k). rewrite <- list_elem_of_In in H. specialize (H Hk).
  destruct (info !! k); [exact H | exact Hd].
Qed.

Lemma dict_get_absent {V} (d : gmap string V) k dflt :
  d !! k = None → dict_get d k dflt = dflt.
Proof. unfold dict_get. intros ->. reflexivity. Qed.

Lemma well_formed_fetched info :
  provider_numeric info = true → well_formed (fetched info) = true.
Proof.
  intros H. unfold fetched. apply well_formed_metric_set;
    (apply dict_get_num; [exact H | provider_field | reflexivity]).
Qed.

Section Fetch.

Variable provider_info : string → result (gmap string pyval).
Variable ticker : string.

Lemma get_fundamental_data_ok info :
  provider_info ticker = Ok info →
  get_fundamental_data provider_info ticker = Ok (fetched info).
Proof. unfold get_fundamental_data. intros ->. reflexivity. Qed.

Lemma get_fundamental_data_raise e :
  provider_info ticker = Raise e →
  get_fundamental_data provider_info ticker = Ok ∅.
Proof. unfold get_fundamental_data. intros ->. reflexivity. Qed.

Lemma analyze_stock_fetched m :
  get_fundamental_data provider_info ticker = Ok m →
  analyze_stock provider_info ticker =
    if (size m =? 0)%nat then Ok None else score_and_assemble ticker m.
Proof. unfold analyze_stock. intros ->. reflexivity. Qed.

End Fetch.

(** * The claims *)

(** C1: on every MetricSet the scorer returns, and each of the five
    banded categories gets the score of its row of the table:
    price-to-earnings 1 below 15.0, -1 above 30.0; price-to-book 1 below
    3.0, -1 above 6.0; debt 1 below 2.0, -1 above 3.0; liquidity 1 above
    1.5, -1 below 1.0; profitability 1 above 0.10, -1 below 0.0; and 0
    otherwise. *)
Theorem scorer_bands (m : gmap string pyval) :
  well_formed m = true →
  ∃ o s, calculate_fundamental_score m = Ok (o, s) ∧
    s !! "pe" = Some (spec_pe (field m "pe_ratio")) ∧
    s !! "pb" = Some (spec_pb (field m "pb_ratio")) ∧
    s !! "debt" = Some (spec_debt (field m "debt_to_equity")) ∧
    s !! "liquidity" = Some (spec_liquidity (field m "current_ratio")) ∧
    s !! "profitability" = Some (spec_profitability (field m "profit_margin")).
Proof.
  intros Hwf. rewrite (calculate_well_formed m Hwf).
  eexists _, _. split; [reflexivity |].
  pose proof (lookup_score_set
    (spec_pe (field m "pe_ratio")) (spec_pb (field m "pb_ratio"))
    (spec_debt (field m "debt_to_equity"))
    (spec_liquidity (field m "current_ratio"))
    (spec_profitability (field m "profit_margin"))
    (spec_size (field m "market_cap"))) as H.
  cbv zeta in H. tauto.
Qed.

Lemma scorer_bands_witness :
  well_formed neutral_metrics = true ∧
  ∃ o s, calculate_fundamental_score neutral_metrics = Ok (o, s) ∧
    s !! "pe" = Some (spec_pe (field neutral_metrics "pe_ratio")) ∧
    s !! "pb" = Some (spec_pb (field neutral_metrics "pb_ratio")) ∧
    s !! "debt" = Some (spec_debt (field neutral_metrics "debt_to_equity")) ∧
    s !! "liquidity" =
      Some (spec_liquidity (field neutral_metrics "current_ratio")) ∧
    s !! "profitability" =
      Some (spec_profitability (field neutral_metrics "profit_margin")).
Proof.
  split; [reflexivity | apply (scorer_bands neutral_metrics); reflexivity].
Defined.

(** C2: the recommender maps a float score to "BUY" when it is at least
    0.5, to "SELL" when it is at most -0.3, and to "HOLD" otherwise; 0.5
    gives "BUY", 0.4999 "HOLD", -0.3 "SELL" and -0.2999 "HOLD". *)
Theorem recommendation_cutoffs (f : float) :
  ((0.5 <=? f)%float = true → get_recommendation (PyFloat f) = Ok "BUY"%string) ∧
  ((f <=? -0.3)%float = true → get_recommendation (PyFloat f) = Ok "SELL"%string) ∧
  ((0.5 <=? f)%float = false → (f <=? -0.3)%float = false →
   get_recommendation (PyFloat f) = Ok "HOLD"%string) ∧
  get_recommendation (PyFloat 0.5) = Ok "BUY"%string ∧
  get_recommendation (PyFloat 0.4999) = Ok "HOLD"%string ∧
  get_recommendation (PyFloat (-0.3)) = Ok "SELL"%string ∧
  get_recommendation (PyFloat (-0.2999)) = Ok "HOLD"%string.
Proof.
  rewrite get_recommendation_float. repeat split.
  - intros ->. reflexivity.
  - intros H. rewrite (sell_not_buy f H), H. reflexivity.
  - intros -> ->. reflexivity.
Qed.

(** C3: the size score is 1 when the market capitalization is above
    1,000,000,000 and -1 otherwise, never 0; exactly 1,000,000,000 scores
    -1 and 1,000,000,001 scores 1, as an int or as a float. *)
Theorem size_is_binary (m : gmap string pyval) :
  well_formed m = true →
  ∃ o s, calculate_fundamental_score m = Ok (o, s) ∧
    s !! "size" = Some (spec_size (field m "market_cap")) ∧
    s !! "size" ≠ Some 0 ∧
    (field m "market_cap" = PyInt 1000000000 ∨
     field m "market_cap" = PyFloat 1000000000 → s !! "size" = Some (-1)) ∧
    (field m "market_cap" = PyInt 1000000001 ∨
     field m "market_cap" = PyFloat 1000000001 → s !! "size" = Some 1).
Proof.
  intros Hwf. rewrite (calculate_well_formed m Hwf).
  eexists _, _. split; [reflexivity |].
  pose proof (lookup_score_set
    (spec_pe (field m "pe_ratio")) (spec_pb (field m "pb_ratio"))
    (spec_debt (field m "debt_to_equity"))
    (spec_liquidity (field m "current_ratio"))
    (spec_profitability (field m "profit_margin"))
    (spec_size (field m "market_cap"))) as H.
  cbv zeta in H. destruct H as (_ & _ & _ & _ & _ & ->).
  repeat split.
  - destruct (spec_size_binary (field m "market_cap")) as [-> | ->]; discriminate.
  - intros [-> | ->]; reflexivity.
  - intros [-> | ->]; reflexivity.
Qed.

Lemma size_is_binary_witness :
  well_formed neutral_metrics = true ∧
  ∃ o s, calculate_fundamental_score neutral_metrics = Ok (o, s) ∧
    s !! "size" = Some (spec_size (field neutral_metrics "market_cap")) ∧
    s !! "size" ≠ Some 0 ∧
    (field neutral_metrics "market_cap" = PyInt 1000000000 ∨
     field neutral_metrics "market_cap" = PyFloat 1000000000 →
     s !! "size" = Some (-1)) ∧
    (field neutral_metrics "market_cap" = PyInt 1000000001 ∨
     field neutral_metrics "market_cap" = PyFloat 1000000001 →
     s !! "size" = Some 1).
Proof.
  split; [reflexivity | apply (size_is_binary neutral_metrics); reflexivity].
Defined.

(** C4: the overall score is the arithmetic mean of the six integer
    category scores: their sum divided by 6 in binary64, which is within
    half a unit in the last place of the exact quotient. *)
Theorem overall_is_mean (m : gmap string pyval) :
  well_formed m = true →
  ∃ o s1 s2 s3 s4 s5 s6,
    calculate_fundamental_score m = Ok (o, score_set s1 s2 s3 s4 s5 s6) ∧
    o = (float_of_Z (s1 + s2 + s3 + s4 + s5 + s6) / 6)%float ∧
    is_mean6 (s1 + s2 + s3 + s4 + s5 + s6) o.
Proof.
  intros Hwf. rewrite (calculate_well_formed m Hwf).
  eexists _, _, _, _, _, _, _. split; [reflexivity |].
  split; [reflexivity |].
  apply mean6_range, sum_range;
    first [apply lower_is_better_ternary | apply higher_is_better_ternary
          | destruct (spec_size_binary (field m "market_cap")) as [-> | ->];
            unfold ternary; lia].
Qed.

Lemma overall_is_mean_witness :
  well_formed neutral_metrics = true ∧
  ∃ o s1 s2 s3 s4 s5 s6,
    calculate_fundamental_score neutral_metrics =
      Ok (o, score_set s1 s2 s3 s4 s5 s6) ∧
    o = (float_of_Z (s1 + s2 + s3 + s4 + s5 + s6) / 6)%float ∧
    is_mean6 (s1 + s2 + s3 + s4 + s5 + s6) o.
Proof.
  split; [reflexivity | apply (overall_is_mean neutral_metrics); reflexivity].
Defined.

(** C5: on every MetricSet the ScoreSet has exactly the six categories,
    every score is -1, 0 or 1, and the overall score lies in [-1, 1]. *)
Theorem score_set_invariant (m : gmap string pyval) :
  well_formed m = true →
  ∃ o s, calculate_fundamental_score m = Ok (o, s) ∧
    dom s = SCORE_CATEGORIES ∧
    (∀ k v, s !! k = Some v → ternary v) ∧
    (-1 <=? o)%float = true ∧ (o <=? 1)%float = true.
Proof.
  intros Hwf. rewrite (calculate_well_formed m Hwf).
  eexists _, _. split; [reflexivity |].
  assert (Hsize : ternary (spec_size (field m "market_cap"))).
  { destruct (spec_size_binary (field m "market_cap")) as [-> | ->];
      unfold ternary; lia. }
  split; [apply dom_score_set |]. split.
  - intros k v Hk.
    apply score_set_values in Hk as [-> | [-> | [-> | [-> | [-> | ->]]]]];
      first [apply lower_is_better_ternary | apply higher_is_better_ternary
            | exact Hsize].
  - match goal with
    | |- (_ <=? mean6 ?sum)%float = true ∧ _ =>
        assert (Hr : -6 ≤ sum ≤ 6)
          by (apply sum_range;
              first [apply lower_is_better_ternary
                    | apply higher_is_better_ternary | exact Hsize]);
        destruct (mean6_range sum Hr) as (? & ? & _)
    end.
    split; assumption.
Qed.

Lemma score_set_invariant_witness :
  well_formed neutral_metrics = true ∧
  ∃ o s, calculate_fundamental_score neutral_metrics = Ok (o, s) ∧
    dom s = SCORE_CATEGORIES ∧
    (∀ k v, s !! k = Some v → ternary v) ∧
    (-1 <=? o)%float = true ∧ (o <=? 1)%float = true.
Proof.
  split; [reflexivity | apply (score_set_invariant neutral_metrics); reflexivity].
Defined.

(** C6: a field the provider record lacks is read as its sentinel:
    positive infinity for price-to-earnings, price-to-book and
    debt-to-equity, zero for current ratio, profit margin, market
    capitalization and dividend yield.  With debt-to-equity missing, the
    debt rule evaluates to -1, every ScoreSet the scorer returns has debt
    -1, and the scorer does return when the fields the record has are
    numbers. *)
Theorem missing_fields_default
  (provider_info : string → result (gmap string pyval)) (ticker : string)
  (info : gmap string pyval) :
  provider_info ticker = Ok info →
  ∃ m, get_fundamental_data provider_info ticker = Ok m ∧
    (info !! "forwardPE" = None → m !! "pe_ratio" = Some (PyFloat infinity)) ∧
    (info !! "priceToBook" = None → m !! "pb_ratio" = Some (PyFloat infinity)) ∧
    (info !! "debtToEquity" = None →
     m !! "debt_to_equity" = Some (PyFloat infinity)) ∧
    (info !! "currentRatio" = None → m !! "current_ratio" = Some (PyFloat 0)) ∧
    (info !! "profitMargins" = None → m !! "profit_margin" = Some (PyFloat 0)) ∧
    (info !! "marketCap" = None → m !! "market_cap" = Some (PyFloat 0)) ∧
    (info !! "dividendYield" = None →
     m !! "dividend_yield" = Some (PyFloat 0)) ∧
    (info !! "debtToEquity" = None →
     score_debt m = Ok (-1) ∧
     (∀ o s, calculate_fundamental_score m = Ok (o, s) →
             s !! "debt" = Some (-1)) ∧
     (provider_numeric info = true →
      ∃ o s, calculate_fundamental_score m = Ok (o, s) ∧
             s !! "debt" = Some (-1))).
Proof.
  intros Hp. exists (fetched info).
  split; [apply get_fundamental_data_ok; exact Hp |].
  destruct (lookup_metric_set
    (dict_get info "forwardPE" float_inf) (dict_get info "priceToBook" float_inf)
    (dict_get info "debtToEquity" float_inf)
    (dict_get info "currentRatio" (PyFloat 0.0))
    (dict_get info "profitMargins" (PyFloat 0.0))
    (dict_get info "marketCap" (PyFloat 0.0))
    (dict_get info "dividendYield" (PyFloat 0.0)))
    as (E1 & E2 & E3 & E4 & E5 & E6 & E7).
  fold (fetched info) in E1, E2, E3, E4, E5, E6, E7.
  do 7 (split;
    [intros H; rewrite (dict_get_absent _ _ _ H) in *; assumption |]).
  intros H. rewrite (dict_get_absent _ _ _ H) in E3.
  pose proof (score_debt_num _ _ E3 eq_refl) as Hdebt.
  change (spec_debt float_inf) with (-1) in Hdebt.
  assert (Hret : ∀ o s, calculate_fundamental_score (fetched info) = Ok (o, s) →
                        s !! "debt" = Some (-1)).
  { intros o s Hc.
    apply calculate_ok_inv in Hc
      as (s1 & s2 & s3 & s4 & s5 & s6 & _ & _ & Hd & _ & _ & _ & -> & _).
    rewrite Hdebt in Hd. injection Hd as <-. reflexivity. }
  split; [exact Hdebt |]. split; [exact Hret |].
  intros Hn.
  pose proof (calculate_well_formed _ (well_formed_fetched info Hn)) as Hc.
  eexists _, _. split; [exact Hc | exact (Hret _ _ Hc)].
Qed.

Lemma missing_fields_default_witness :
  (λ _ : string, Ok (∅ : gmap string pyval)) "AAPL"%string = Ok ∅ ∧
  ∃ m, get_fundamental_data (λ _, Ok ∅) "AAPL" = Ok m ∧
    m !! "debt_to_equity" = Some (PyFloat infinity) ∧
    m !! "dividend_yield" = Some (PyFloat 0) ∧
    ∃ o s, calculate_fundamental_score m = Ok (o, s) ∧ s !! "debt" = Some (-1).
Proof.
  split; [reflexivity |].
  destruct (missing_fields_default (λ _, Ok ∅) "AAPL" ∅ eq_refl)
    as (m & Hm & _ & _ & Hde & _ & _ & _ & Hdy & Hdebt).
  exists m. split; [exact Hm |].
  split; [apply Hde; reflexivity |].
  split; [apply Hdy; reflexivity |].
  apply Hdebt; reflexivity.
Defined.

(** The known ticker, run through the whole pipeline. *)
Example analyze_stock_acme :
  ∃ r, analyze_stock one_ticker_provider "ACME" = Ok (Some r) ∧
       scores r = score_set 1 (-1) (-1) (-1) 0 1 ∧
       recommendation r = "HOLD"%string.
Proof. eexists. split; [vm_compute; reflexivity |]. split; vm_compute; reflexivity. Qed.

(** C8: pe=10, pb=2, debt=1, current ratio=2, profit margin=0.2, market
    cap=5e9 scores 1 in every category, 1.0 overall, and is a "BUY";
    pe=50, pb=10, debt=5, current ratio=0.5, profit margin=-0.1, market
    cap=5e8 scores -1 in every category, -1.0 overall, and is a "SELL". *)
Theorem end_to_end_scenarios (dy : pyval) :
  calculate_fundamental_score (strong_metrics dy) =
    Ok (1.0%float, score_set 1 1 1 1 1 1) ∧
  get_recommendation (PyFloat 1.0) = Ok "BUY"%string ∧
  calculate_fundamental_score (weak_metrics dy) =
    Ok ((-1.0)%float, score_set (-1) (-1) (-1) (-1) (-1) (-1)) ∧
  get_recommendation (PyFloat (-1.0)) = Ok "SELL"%string.
Proof. repeat split; vm_compute; reflexivity. Qed.

(** The same scenarios with the whole numbers given as Python ints. *)
Example int_scenarios dy :
  calculate_fundamental_score
    (metric_set (PyInt 10) (PyInt 2) (PyInt 1) (PyInt 2) (PyFloat 0.2)
                (PyInt 5000000000) dy) =
    Ok (1.0%float, score_set 1 1 1 1 1 1) ∧
  calculate_fundamental_score
    (metric_set (PyInt 50) (PyInt 10) (PyInt 5) (PyFloat 0.5) (PyFloat (-0.1))
                (PyInt 500000000) dy) =
    Ok ((-1.0)%float, score_set (-1) (-1) (-1) (-1) (-1) (-1)).
Proof. split; vm_compute; reflexivity. Qed.

(** C9: on a well-formed MetricSet the scorer returns (no KeyError, no
    TypeError, and the divisor is the length 6 of the ScoreSet, so no
    ZeroDivisionError), and the recommender returns on the overall score,
    as it does on every number. *)
Theorem scorer_recommender_total (m : gmap string pyval) (v : pyval) :
  well_formed m = true → is_num v = true →
  (∃ o s r, calculate_fundamental_score m = Ok (o, s) ∧ len s = 6 ∧
            get_recommendation (PyFloat o) = Ok r) ∧
  returns (get_recommendation v).
Proof.
  intros Hwf Hv. split; [| apply get_recommendation_num; exact Hv].
  rewrite (calculate_well_formed m Hwf).
  match goal with
  | |- ∃ o s r, Ok (?o', ?s') = _ ∧ _ =>
      destruct (get_recommendation_num (PyFloat o') eq_refl) as [r Hr];
      exists o', s', r
  end.
  split; [reflexivity |]. split; [apply len_score_set | exact Hr].
Qed.

Lemma scorer_recommender_total_witness :
  well_formed neutral_metrics = true ∧ is_num (PyInt 1) = true ∧
  (∃ o s r, calculate_fundamental_score neutral_metrics = Ok (o, s) ∧
            len s = 6 ∧ get_recommendation (PyFloat o) = Ok r) ∧
  returns (get_recommendation (PyInt 1)).
Proof.
  split; [reflexivity |]. split; [reflexivity |].
  apply (scorer_recommender_total neutral_metrics (PyInt 1)); reflexivity.
Defined.

(** C10: two MetricSets that agree on every field but the dividend yield
    get the same overall score and ScoreSet from the scorer, and so the
    same recommendation. *)
Theorem dividend_yield_unused (m1 m2 : gmap string pyval) :
  (∀ k, k ≠ "dividend_yield"%string → m1 !! k = m2 !! k) →
  calculate_fundamental_score m1 = calculate_fundamental_score m2 ∧
  (calculate_fundamental_score m1 ≫= λ '(o, _), get_recommendation (PyFloat o)) =
  (calculate_fundamental_score m2 ≫= λ '(o, _), get_recommendation (PyFloat o)).
Proof.
  intros H.
  assert (Hc : calculate_fundamental_score m1 = calculate_fundamental_score m2).
  { unfold calculate_fundamental_score, score_pe, score_pb, score_debt,
      score_liquidity, score_profitability, score_size, getitem.
    rewrite !(H "pe_ratio"%string), !(H "pb_ratio"%string),
      !(H "debt_to_equity"%string), !(H "current_ratio"%string),
      !(H "profit_margin"%string), !(H "market_cap"%string) by discriminate.
    reflexivity. }
  split; [exact Hc | rewrite Hc; reflexivity].
Qed.

Lemma dividend_yield_unused_witness :
  (∀ k, k ≠ "dividend_yield"%string →
        neutral_metrics !! k =
        (<["dividend_yield" := PyFloat 0.08]> neutral_metrics) !! k) ∧
  calculate_fundamental_score neutral_metrics =
  calculate_fundamental_score
    (<["dividend_yield" := PyFloat 0.08]> neutral_metrics).
Proof.
  assert (H : ∀ k, k ≠ "dividend_yield"%string →
    neutral_metrics !! k =
    (<["dividend_yield" := PyFloat 0.08]> neutral_metrics) !! k).
  { intros k Hk. rewrite lookup_insert_ne by congruence. reflexivity. }
  split; [exact H |].
  exact (proj1 (dividend_yield_unused _ _ H)).
Defined.

(** * Further properties of the pipeline *)

(** ** The scorer on arbitrary dicts *)

Lemma py_lt_not_num_l a b :
  is_num a = false → is_num b = true → py_lt a b = Raise TypeError.
Proof. destruct a, b; simpl; intros; try discriminate; reflexivity. Qed.

Lemma py_lt_not_num_r a b :
  is_num a = true → is_num b = false → py_lt a b = Raise TypeError.
Proof. destruct a, b; simpl; intros; try discriminate; reflexivity. Qed.

Lemma py_le_not_num_l a b :
  is_num a = false → is_num b = true → py_le a b = Raise TypeError.
Proof. destruct a, b; simpl; intros; try discriminate; reflexivity. Qed.

Lemma py_le_not_num_r a b :
  is_num a = true → is_num b = false → py_le a b = Raise TypeError.
Proof. destruct a, b; simpl; intros; try discriminate; reflexivity. Qed.

Ltac field_outcome_tac f_num :=
  unfold field_outcome;
  match goal with
  | |- _ = match ?m !! ?k with _ => _ end =>
      destruct (m !! k) as [v|] eqn:Hm;
      [ destruct (is_num v) eqn:Hv; [exact (f_num _ _ Hm Hv) |] |]
  end.

Lemma score_pe_outcome m : score_pe m = field_outcome "pe_ratio" spec_pe m.
Proof.
  field_outcome_tac score_pe_num; unfold score_pe, getitem; rewrite Hm;
    [rewrite bind_Ok, py_lt_not_num_l by (exact Hv || reflexivity) |];
    reflexivity.
Qed.

Lemma score_pb_outcome m : score_pb m = field_outcome "pb_ratio" spec_pb m.
Proof.
  field_outcome_tac score_pb_num; unfold score_pb, getitem; rewrite Hm;
    [rewrite bind_Ok, py_lt_not_num_l by (exact Hv || reflexivity) |];
    reflexivity.
Qed.

Lemma score_debt_outcome m :
  score_debt m = field_outcome "debt_to_equity" spec_debt m.
Proof.
  field_outcome_tac score_debt_num; unfold score_debt, getitem; rewrite Hm;
    [rewrite bind_Ok, py_lt_not_num_l by (exact Hv || reflexivity) |];
    reflexivity.
Qed.

Lemma score_liquidity_outcome m :
  score_liquidity m = field_outcome "current_ratio" spec_liquidity m.
Proof.
  field_outcome_tac score_liquidity_num; unfold score_liquidity, getitem;
    rewrite Hm;
    [unfold py_gt; rewrite bind_Ok, py_lt_not_num_r by (exact Hv || reflexivity) |];
    reflexivity.
Qed.

Lemma score_profitability_outcome m :
  score_profitability m = field_outcome "profit_margin" spec_profitability m.
Proof.
  field_outcome_tac score_profitability_num;
    unfold score_profitability, getitem; rewrite Hm;
    [unfold py_gt; rewrite bind_Ok, py_lt_not_num_r by (exact Hv || reflexivity) |];
    reflexivity.
Qed.

Lemma score_size_outcome m :
  score_size m = field_outcome "market_cap" spec_size m.
Proof.
  field_outcome_tac score_size_num; unfold score_size, getitem; rewrite Hm;
    [unfold py_gt; rewrite bind_Ok, py_lt_not_num_r by (exact Hv || reflexivity) |];
    reflexivity.
Qed.

(** The scorer as the sequence of its six conditional expressions. *)
Lemma calculate_sequence m :
  calculate_fundamental_score m =
  (s1 ← field_outcome "pe_ratio" spec_pe m;
   s2 ← field_outcome "pb_ratio" spec_pb m;
   s3 ← field_outcome "debt_to_equity" spec_debt m;
   s4 ← field_outcome "current_ratio" spec_liquidity m;
   s5 ← field_outcome "profit_margin" spec_profitability m;
   s6 ← field_outcome "market_cap" spec_size m;
   Ok (mean6 (s1 + s2 + s3 + s4 + s5 + s6), score_set s1 s2 s3 s4 s5 s6)).
Proof.
  rewrite <- score_pe_outcome, <- score_pb_outcome, <- score_debt_outcome,
    <- score_liquidity_outcome, <- score_profitability_outcome,
    <- score_size_outcome.
  destruct (score_pe m) as [s1|e] eqn:H1; [| unfold calculate_fundamental_score; rewrite H1; reflexivity].
  destruct (score_pb m) as [s2|e] eqn:H2; [| unfold calculate_fundamental_score; rewrite H1, bind_Ok, H2; reflexivity].
  destruct (score_debt m) as [s3|e] eqn:H3; [| unfold calculate_fundamental_score; rewrite H1, bind_Ok, H2, bind_Ok, H3; reflexivity].
  destruct (score_liquidity m) as [s4|e] eqn:H4; [| unfold calculate_fundamental_score; rewrite H1, bind_Ok, H2, bind_Ok, H3, bind_Ok, H4; reflexivity].
  destruct (score_profitability m) as [s5|e] eqn:H5; [| unfold calculate_fundamental_score; rewrite H1, bind_Ok, H2, bind_Ok, H3, bind_Ok, H4, bind_Ok, H5; reflexivity].
  destruct (score_size m) as [s6|e] eqn:H6; [| unfold calculate_fundamental_score; rewrite H1, bind_Ok, H2, bind_Ok, H3, bind_Ok, H4, bind_Ok, H5, bind_Ok, H6; reflexivity].
  rewrite !bind_Ok. apply calculate_ok; assumption.
Qed.

Lemma field_outcome_offence k rule m :
  field_outcome k rule m =
  match offence m k with
  | Some e => Raise e
  | None => Ok (rule (field m k))
  end.
Proof.
  unfold field_outcome, offence, field.
  destruct (m !! k) as [v|]; [destruct (is_num v) |]; reflexivity.
Qed.

(** The scorer's outcome, by the first offence among the scored fields. *)
Lemma calculate_first_offence m :
  calculate_fundamental_score m =
  match first_offence m with
  | Some e => Raise e
  | None =>
      Ok (mean6 (spec_pe (field m "pe_ratio") + spec_pb (field m "pb_ratio") +
                 spec_debt (field m "debt_to_equity") +
                 spec_liquidity (field m "current_ratio") +
                 spec_profitability (field m "profit_margin") +
                 spec_size (field m "market_cap")),
          score_set (spec_pe (field m "pe_ratio"))
                    (spec_pb (field m "pb_ratio"))
                    (spec_debt (field m "debt_to_equity"))
                    (spec_liquidity (field m "current_ratio"))
                    (spec_profitability (field m "profit_margin"))
                    (spec_size (field m "market_cap")))
  end.
Proof.
  rewrite calculate_sequence, !field_outcome_offence.
  unfold first_offence, SCORED_FIELDS. cbn [foldr].
  destruct (offence m "pe_ratio"); [reflexivity | rewrite bind_Ok].
  destruct (offence m "pb_ratio"); [reflexivity | rewrite bind_Ok].
  destruct (offence m "debt_to_equity"); [reflexivity | rewrite bind_Ok].
  destruct (offence m "current_ratio"); [reflexivity | rewrite bind_Ok].
  destruct (offence m "profit_margin"); [reflexivity | rewrite bind_Ok].
  destruct (offence m "market_cap"); [reflexivity | rewrite bind_Ok].
  reflexivity.
Qed.

(** X1: the scorer raises exactly the offence of the first scored field,
    in source order, that is missing (KeyError with its name) or does not
    hold a number (TypeError); when no scored field has an offence it
    returns the mean and the six scores of the table. *)
Theorem scorer_outcome (m : gmap string pyval) :
  match first_offence m with
  | Some e => calculate_fundamental_score m = Raise e
  | None =>
      calculate_fundamental_score m =
        Ok (mean6 (spec_pe (field m "pe_ratio") + spec_pb (field m "pb_ratio") +
                   spec_debt (field m "debt_to_equity") +
                   spec_liquidity (field m "current_ratio") +
                   spec_profitability (field m "profit_margin") +
                   spec_size (field m "market_cap")),
            score_set (spec_pe (field m "pe_ratio"))
                      (spec_pb (field m "pb_ratio"))
                      (spec_debt (field m "debt_to_equity"))
                      (spec_liquidity (field m "current_ratio"))
                      (spec_profitability (field m "profit_margin"))
                      (spec_size (field m "market_cap")))
  end.
Proof.
  rewrite (calculate_first_offence m).
  destruct (first_offence m) as [e|]; reflexivity.
Qed.

Lemma first_offence_cases m e :
  first_offence m = Some e →
  (∃ k, k ∈ SCORED_FIELDS ∧ m !! k = None ∧ e = KeyError k) ∨
  (∃ k v, k ∈ SCORED_FIELDS ∧ m !! k = Some v ∧ is_num v = false ∧
          e = TypeError).
Proof.
  unfold first_offence. induction SCORED_FIELDS as [|k ks IH]; cbn [foldr].
  - discriminate.
  - unfold offence at 1. destruct (m !! k) as [v|] eqn:Hk.
    + destruct (is_num v) eqn:Hv.
      * intros H. destruct (IH H) as [(k' & ? & ?) | (k' & v' & ? & ?)];
          [left | right]; eauto using list_elem_of_further.
      * intros [= <-]. right. exists k, v. eauto using list_elem_of_here.
    + intros [= <-]. left. exists k. eauto using list_elem_of_here.
Qed.

(** X2: whatever the dict, the scorer raises nothing but a KeyError
    naming a scored field the dict lacks, or a TypeError for a scored
    field that holds no number; in particular never a division by zero. *)
Theorem scorer_errors (m : gmap string pyval) (e : exn) :
  calculate_fundamental_score m = Raise e →
  (∃ k, k ∈ SCORED_FIELDS ∧ m !! k = None ∧ e = KeyError k) ∨
  (∃ k v, k ∈ SCORED_FIELDS ∧ m !! k = Some v ∧ is_num v = false ∧
          e = TypeError).
Proof.
  intros H. rewrite calculate_first_offence in H.
  destruct (first_offence m) as [e'|] eqn:Hf.
  - injection H as ->. exact (first_offence_cases m e Hf).
  - discriminate.
Qed.

Lemma scorer_errors_witness :
  calculate_fundamental_score ∅ = Raise (KeyError "pe_ratio") ∧
  ((∃ k, k ∈ SCORED_FIELDS ∧ (∅ : gmap string pyval) !! k = None ∧
         KeyError "pe_ratio" = KeyError k) ∨
   (∃ k v, k ∈ SCORED_FIELDS ∧ (∅ : gmap string pyval) !! k = Some v ∧
           is_num v = false ∧ KeyError "pe_ratio" = TypeError)).
Proof.
  split; [reflexivity | apply (scorer_errors ∅); reflexivity].
Defined.

(** ** The recommender on arbitrary values *)

Lemma label_cases (b1 b2 : bool) :
  (if b1 then "BUY" else if b2 then "SELL" else "HOLD")%string
    ∈ ["BUY"; "SELL"; "HOLD"]%string.
Proof. destruct b1, b2; in_list. Qed.

(** X3: the recommender returns exactly on numbers, always with one of
    the three labels; on anything else (None, a str) it raises TypeError. *)
Theorem recommender_outcome (v : pyval) :
  if is_num v
  then ∃ r, get_recommendation v = Ok r ∧ r ∈ ["BUY"; "SELL"; "HOLD"]%string
  else get_recommendation v = Raise TypeError.
Proof.
  destruct (is_num v) eqn:Hv; unfold get_recommendation.
  - rewrite py_ge_num, bind_Ok by (exact Hv || reflexivity).
    destruct (num_le _ v); [eexists; split; [reflexivity | in_list] |].
    rewrite py_le_num, bind_Ok by (exact Hv || reflexivity).
    destruct (num_le v _); eexists; (split; [reflexivity | in_list]).
  - unfold py_ge.
    rewrite (py_le_not_num_r (PyFloat 0.5) v) by (exact Hv || reflexivity).
    reflexivity.
Qed.

Lemma half_le_int z : num_le (PyFloat 0.5) (PyInt z) = (1 <=? z).
Proof.
  unfold num_le, py_le, Z_compare_float.
  change (Prim2SF 0.5) with (S754_finite false 4503599627370496 (-53)).
  unfold Z_compare_SF, cmp_in, cmp_is.
  change (0 <=? -53) with false. change (- (-53)) with 53. cbv iota.
  destruct (Z.compare_spec (z * 2 ^ 53) (Z.pos 4503599627370496));
    destruct (Z.leb_spec 1 z); try lia; reflexivity.
Qed.

Lemma int_le_sell z : num_le (PyInt z) (PyFloat (-0.3)) = (z <=? -1).
Proof.
  unfold num_le, py_le, Z_compare_float.
  change (Prim2SF (-0.3)) with (S754_finite true 5404319552844595 (-54)).
  unfold Z_compare_SF, cmp_in, cmp_is.
  change (0 <=? -54) with false. change (- (-54)) with 54. cbv iota.
  destruct (Z.compare_spec (z * 2 ^ 54) (Z.neg 5404319552844595));
    destruct (Z.leb_spec z (-1)); try lia; reflexivity.
Qed.

(** X4: on an int score the float cutoffs act as whole-number ones: BUY
    from 1 up, SELL from -1 down, HOLD at 0. *)
Theorem recommendation_of_int (z : Z) :
  get_recommendation (PyInt z) =
  Ok (if (1 <=? z)%Z then "BUY"
      else if (z <=? -1)%Z then "SELL" else "HOLD")%string.
Proof.
  unfold get_recommendation.
  rewrite py_ge_num, bind_Ok, half_le_int by reflexivity.
  destruct (1 <=? z); [reflexivity |].
  rewrite py_le_num, bind_Ok, int_le_sell by reflexivity.
  destruct (z <=? -1); reflexivity.
Qed.

(** The overall score of a sum in range, against the two cutoffs. *)
Lemma recommendation_of_mean6 sum :
  -6 ≤ sum ≤ 6 →
  get_recommendation (PyFloat (mean6 sum)) = Ok (recommend_sum sum).
Proof.
  intros H%range_cases.
  repeat (apply elem_of_cons in H as [->|H]; [vm_compute; reflexivity |]).
  inversion H.
Qed.

Lemma field_outcome_ternary k rule m s :
  (∀ x, ternary (rule x)) → field_outcome k rule m = Ok s → ternary s.
Proof.
  unfold field_outcome. intros Hr.
  destruct (m !! k) as [v|]; [destruct (is_num v) |]; intros [= <-]. apply Hr.
Qed.

Lemma spec_size_ternary x : ternary (spec_size x).
Proof. destruct (spec_size_binary x) as [-> | ->]; unfold ternary; lia. Qed.

(** Whenever the scorer returns, the ScoreSet is six ternary scores and
    the overall score is their mean. *)
Lemma calculate_ok_ternary m o s :
  calculate_fundamental_score m = Ok (o, s) →
  ∃ s1 s2 s3 s4 s5 s6,
    s = score_set s1 s2 s3 s4 s5 s6 ∧
    o = mean6 (s1 + s2 + s3 + s4 + s5 + s6) ∧
    ternary s1 ∧ ternary s2 ∧ ternary s3 ∧ ternary s4 ∧ ternary s5 ∧
    ternary s6.
Proof.
  intros H. apply calculate_ok_inv in H
    as (s1 & s2 & s3 & s4 & s5 & s6 & H1 & H2 & H3 & H4 & H5 & H6 & -> & ->).
  rewrite score_pe_outcome in H1. rewrite score_pb_outcome in H2.
  rewrite score_debt_outcome in H3. rewrite score_liquidity_outcome in H4.
  rewrite score_profitability_outcome in H5. rewrite score_size_outcome in H6.
  exists s1, s2, s3, s4, s5, s6. repeat split.
  - exact (field_outcome_ternary _ _ _ _ (lower_is_better_ternary _ _) H1).
  - exact (field_outcome_ternary _ _ _ _ (lower_is_better_ternary _ _) H2).
  - exact (field_outcome_ternary _ _ _ _ (lower_is_better_ternary _ _) H3).
  - exact (field_outcome_ternary _ _ _ _ (higher_is_better_ternary _ _) H4).
  - exact (field_outcome_ternary _ _ _ _ (higher_is_better_ternary _ _) H5).
  - exact (field_outcome_ternary _ _ _ _ spec_size_ternary H6).
Qed.

(** Whenever the scorer returns, the overall score is the mean of the
    sum of the ScoreSet, and that sum lies between -6 and 6. *)
Lemma calculate_ok_sum m o s :
  calculate_fundamental_score m = Ok (o, s) →
  o = mean6 (sum_values s) ∧ -6 ≤ sum_values s ≤ 6.
Proof.
  intros H. apply calculate_ok_ternary in H
    as (s1 & s2 & s3 & s4 & s5 & s6 & -> & -> & T1 & T2 & T3 & T4 & T5 & T6).
  rewrite sum_values_score_set. split; [reflexivity |].
  apply sum_range; assumption.
Qed.

(** X5: scorer and recommender composed: whenever the scorer returns,
    the recommendation is decided by the sum of the six scores: BUY from
    3 up (0.5 = 3/6), SELL from -2 down (-2/6 is below -0.3 and -1/6 is
    not), HOLD from -1 to 2. *)
Theorem recommendation_by_sum (m : gmap string pyval) (o : float)
  (s : gmap string Z) :
  calculate_fundamental_score m = Ok (o, s) →
  get_recommendation (PyFloat o) = Ok (recommend_sum (sum_values s)).
Proof.
  intros H. destruct (calculate_ok_sum m o s H) as [-> Hrange].
  apply recommendation_of_mean6. exact Hrange.
Qed.

Lemma recommendation_by_sum_witness :
  ∃ o s, calculate_fundamental_score neutral_metrics = Ok (o, s) ∧
         get_recommendation (PyFloat o) = Ok (recommend_sum (sum_values s)).
Proof.
  pose proof (calculate_well_formed neutral_metrics eq_refl) as Hc.
  eexists _, _. split; [exact Hc |].
  exact (recommendation_by_sum neutral_metrics _ _ Hc).
Defined.

(** ** The fetcher and the orchestrator on arbitrary provider records *)

Lemma dom_metric_set pe pb de cr pm mc dy :
  dom (metric_set pe pb de cr pm mc dy) = list_to_set METRIC_FIELDS.
Proof.
  unfold metric_set, METRIC_FIELDS, METRIC_LABELS.
  cbn [list_to_map foldr fmap list_fmap fst list_to_set uncurry].
  rewrite !dom_insert_L, dom_empty_L. set_solver.
Qed.

Lemma dom_fetched info : dom (fetched info) = list_to_set METRIC_FIELDS.
Proof. unfold fetched. apply dom_metric_set. Qed.

Lemma offence_dict_get (info : gmap string pyval) k dflt :
  is_num dflt = true →
  (if is_num (dict_get info k dflt) then None else Some TypeError) =
  match info !! k with
  | Some v => if is_num v then None else Some TypeError
  | None => None
  end.
Proof.
  unfold dict_get. intros Hd. destruct (info !! k) as [v|]; cbn [default].
  - reflexivity.
  - rewrite Hd. reflexivity.
Qed.

Lemma first_offence_fetched info :
  first_offence (fetched info) =
  if provider_scorable info then None else Some TypeError.
Proof.
  destruct (lookup_metric_set
    (dict_get info "forwardPE" float_inf) (dict_get info "priceToBook" float_inf)
    (dict_get info "debtToEquity" float_inf)
    (dict_get info "currentRatio" (PyFloat 0.0))
    (dict_get info "profitMargins" (PyFloat 0.0))
    (dict_get info "marketCap" (PyFloat 0.0))
    (dict_get info "dividendYield" (PyFloat 0.0)))
    as (E1 & E2 & E3 & E4 & E5 & E6 & _).
  fold (fetched info) in E1, E2, E3, E4, E5, E6.
  unfold first_offence, provider_scorable, SCORED_FIELDS,
    SCORED_PROVIDER_FIELDS, offence.
  cbn [foldr forallb]. rewrite E1, E2, E3, E4, E5, E6.
  rewrite !offence_dict_get by reflexivity.
  repeat match goal with
         | |- context [info !! ?k] =>
             destruct (info !! k) as [?v|];
             [match goal with
              | |- context [is_num ?x] =>
                  destruct (is_num x); [| reflexivity]
              end |]
         end;
    reflexivity.
Qed.

(** The orchestrator on a record the provider returned. *)
Lemma analyze_stock_record
  (provider_info : string → result (gmap string pyval)) (t : string) info :
  provider_info t = Ok info →
  analyze_stock provider_info t = score_and_assemble t (fetched info).
Proof.
  intros Hp.
  rewrite (analyze_stock_fetched _ _ _ (get_fundamental_data_ok _ _ _ Hp)).
  rewrite size_fetched. reflexivity.
Qed.

Lemma analyze_stock_raised
  (provider_info : string → result (gmap string pyval)) (t : string) e :
  provider_info t = Raise e → analyze_stock provider_info t = Ok None.
Proof.
  intros Hp.
  rewrite (analyze_stock_fetched _ _ _ (get_fundamental_data_raise _ _ _ Hp)).
  reflexivity.
Qed.

Lemma score_and_assemble_scorable t info :
  provider_scorable info = true →
  ∃ r, score_and_assemble t (fetched info) = Ok (Some r).
Proof.
  intros Hs. unfold score_and_assemble.
  rewrite calculate_first_offence, first_offence_fetched, Hs, bind_Ok.
  match goal with
  | |- context [get_recommendation (PyFloat ?o)] =>
      destruct (get_recommendation_num (PyFloat o) eq_refl) as [r ->]
  end.
  eexists. reflexivity.
Qed.

Lemma score_and_assemble_unscorable t info :
  provider_scorable info = false →
  score_and_assemble t (fetched info) = Raise TypeError.
Proof.
  intros Hs. unfold score_and_assemble.
  rewrite calculate_first_offence, first_offence_fetched, Hs. reflexivity.
Qed.

(** What a returned analysis is made of. *)
Lemma score_and_assemble_inv t m r :
  score_and_assemble t m = Ok (Some r) →
  ∃ o s label,
    calculate_fundamental_score m = Ok (o, s) ∧
    get_recommendation (PyFloat o) = Ok label ∧
    r = {| ticker := t; metrics := m; scores := s; overall_score := o;
           recommendation := label |}.
Proof.
  unfold score_and_assemble. intros H.
  apply bind_Ok_inv in H as ([o s] & Hc & H).
  apply bind_Ok_inv in H as (label & Hr & H).
  injection H as <-. eauto 10.
Qed.

(** The dicts of a returned analysis. *)
Lemma analysis_result_shape
  (provider_info : string → result (gmap string pyval)) (t : string)
  (r : AnalysisResult) :
  analyze_stock provider_info t = Ok (Some r) →
  (∃ info, metrics r = fetched info) ∧
  (∃ s1 s2 s3 s4 s5 s6, scores r = score_set s1 s2 s3 s4 s5 s6).
Proof.
  intros H. destruct (provider_info t) as [info|e] eqn:Hp.
  - rewrite (analyze_stock_record _ _ _ Hp) in H.
    apply score_and_assemble_inv in H as (o & s & label & Hc & _ & ->).
    cbn [metrics scores]. split; [eauto |].
    apply calculate_ok_ternary in Hc as (s1 & s2 & s3 & s4 & s5 & s6 & -> & _).
    eauto 10.
  - rewrite (analyze_stock_raised _ _ _ Hp) in H. discriminate.
Qed.

(** C7: when the provider raises, the fetcher returns the empty dict and
    the orchestrator returns None, raising nothing; when the provider
    yields a record, the fetcher returns a non-empty MetricSet, the
    orchestrator is the scorer followed by the recommender, and it
    returns the assembled result if and only if every scored field the
    record has holds a number. *)
Theorem analyze_stock_fork
  (provider_info : string → result (gmap string pyval)) (t : string) :
  (∀ e, provider_info t = Raise e →
        get_fundamental_data provider_info t = Ok ∅ ∧
        analyze_stock provider_info t = Ok None) ∧
  (∀ info, provider_info t = Ok info →
     ∃ m, get_fundamental_data provider_info t = Ok m ∧
          size m = 7%nat ∧
          analyze_stock provider_info t = score_and_assemble t m ∧
          (provider_scorable info = true ↔
           ∃ r, analyze_stock provider_info t = Ok (Some r)) ∧
          (provider_scorable info = true →
           ∃ o s label,
             calculate_fundamental_score m = Ok (o, s) ∧
             get_recommendation (PyFloat o) = Ok label ∧
             analyze_stock provider_info t =
               Ok (Some {| ticker := t; metrics := m; scores := s;
                           overall_score := o; recommendation := label |}))).
Proof.
  split.
  - intros e He. split.
    + exact (get_fundamental_data_raise _ _ _ He).
    + exact (analyze_stock_raised _ _ _ He).
  - intros info Hi. exists (fetched info).
    pose proof (analyze_stock_record _ _ _ Hi) as Hrec.
    split; [exact (get_fundamental_data_ok _ _ _ Hi) |].
    split; [apply size_fetched |]. split; [exact Hrec |].
    split; [split |].
    + intros Hs. rewrite Hrec. exact (score_and_assemble_scorable t info Hs).
    + intros [r Hr]. destruct (provider_scorable info) eqn:Hs; [reflexivity |].
      rewrite Hrec, (score_and_assemble_unscorable t info Hs) in Hr.
      discriminate.
    + intros Hs.
      destruct (score_and_assemble_scorable t info Hs) as [r Hr].
      destruct (score_and_assemble_inv _ _ _ Hr) as (o & s & label & Hc & Hl & ->).
      exists o, s, label. split; [exact Hc |]. split; [exact Hl |].
      rewrite Hrec. exact Hr.
Qed.

Lemma analyze_stock_fork_witness :
  analyze_stock one_ticker_provider "NOPE" = Ok None ∧
  ∃ r, analyze_stock one_ticker_provider "ACME" = Ok (Some r) ∧
       ticker r = "ACME"%string.
Proof.
  split.
  - apply (proj1 (analyze_stock_fork one_ticker_provider "NOPE")
             (ProviderError "no such ticker")).
    reflexivity.
  - destruct (proj2 (analyze_stock_fork one_ticker_provider "ACME") _ eq_refl)
      as (m & _ & _ & _ & _ & Hn).
    destruct (Hn eq_refl) as (o & s & label & _ & _ & Ha).
    eexists. split; [exact Ha | reflexivity].
Defined.

(** The fork as the specification words it fails on a record that has a
    scored field with no number in it: the fetcher passes the None
    through, the dict it yields is not empty, and the scorer's first
    comparison raises. *)
Lemma analyze_stock_fork_counterexample :
  get_fundamental_data none_pe_provider "ACME" =
    Ok (fetched {[ "forwardPE"%string := PyNone ]}) ∧
  fetched {[ "forwardPE"%string := PyNone ]} !! "pe_ratio"%string =
    Some PyNone ∧
  analyze_stock none_pe_provider "ACME" = Raise TypeError ∧
  ¬ fork_as_stated none_pe_provider "ACME".
Proof.
  pose proof (get_fundamental_data_ok none_pe_provider "ACME"
                {[ "forwardPE"%string := PyNone ]} eq_refl) as Hf.
  assert (Ha : analyze_stock none_pe_provider "ACME" = Raise TypeError).
  { rewrite (analyze_stock_record none_pe_provider "ACME" _ eq_refl).
    apply score_and_assemble_unscorable. reflexivity. }
  split; [exact Hf |].
  split; [vm_compute; reflexivity |].
  split; [exact Ha |].
  intros H. specialize (H _ Hf). rewrite size_fetched in H.
  change (7 =? 0)%nat with false in H. cbv iota in H.
  destruct H as [r Hr]. rewrite Ha in Hr. discriminate.
Qed.

(** X6: the three outcomes of the orchestrator.  The provider raised:
    None.  The provider gave a record whose scored fields, where present,
    hold numbers: an assembled result.  Otherwise: TypeError, from the
    scorer.  The dividend yield and fields the scorer does not read may
    hold anything. *)
Theorem analyze_stock_outcome
  (provider_info : string → result (gmap string pyval)) (ticker : string) :
  match provider_info ticker with
  | Raise _ => analyze_stock provider_info ticker = Ok None
  | Ok info =>
      if provider_scorable info
      then ∃ r, analyze_stock provider_info ticker = Ok (Some r)
      else analyze_stock provider_info ticker = Raise TypeError
  end.
Proof.
  destruct (provider_info ticker) as [info|e] eqn:Hp.
  - rewrite (analyze_stock_record _ _ _ Hp).
    destruct (provider_scorable info) eqn:Hs.
    + exact (score_and_assemble_scorable ticker info Hs).
    + exact (score_and_assemble_unscorable ticker info Hs).
  - exact (analyze_stock_raised _ _ _ Hp).
Qed.

(** X7: a returned analysis is consistent: it carries the ticker asked
    for and the MetricSet fetched for it, its ScoreSet has the six
    categories and is, with the overall score, what the scorer gives on
    that MetricSet, and its recommendation is the one the sum of its
    scores decides. *)
Theorem analysis_result_consistent
  (provider_info : string → result (gmap string pyval)) (t : string)
  (r : AnalysisResult) :
  analyze_stock provider_info t = Ok (Some r) →
  ticker r = t ∧
  get_fundamental_data provider_info t = Ok (metrics r) ∧
  dom (metrics r) = list_to_set METRIC_FIELDS ∧
  calculate_fundamental_score (metrics r) = Ok (overall_score r, scores r) ∧
  dom (scores r) = SCORE_CATEGORIES ∧
  recommendation r = recommend_sum (sum_values (scores r)).
Proof.
  intros H. destruct (provider_info t) as [info|e] eqn:Hp.
  - rewrite (analyze_stock_record _ _ _ Hp) in H.
    apply score_and_assemble_inv in H as (o & s & label & Hc & Hr & ->).
    cbn [ticker metrics scores overall_score recommendation].
    split; [reflexivity |].
    split; [exact (get_fundamental_data_ok _ _ _ Hp) |].
    split; [apply dom_fetched |]. split; [exact Hc |].
    destruct (calculate_ok_sum _ _ _ Hc) as [-> Hrange].
    rewrite (recommendation_of_mean6 _ Hrange) in Hr. injection Hr as <-.
    split; [| reflexivity].
    apply calculate_ok_ternary in Hc as (? & ? & ? & ? & ? & ? & -> & _).
    apply dom_score_set.
  - rewrite (analyze_stock_raised _ _ _ Hp) in H. discriminate.
Qed.

Lemma analysis_result_consistent_witness :
  ∃ r, analyze_stock one_ticker_provider "ACME" = Ok (Some r) ∧
       ticker r = "ACME"%string ∧
       recommendation r = recommend_sum (sum_values (scores r)).
Proof.
  destruct analyze_stock_acme as (r & Ha & _). exists r.
  split; [exact Ha |].
  destruct (analysis_result_consistent one_ticker_provider "ACME" r Ha)
    as (Ht & _ & _ & _ & _ & Hr).
  split; [exact Ht | exact Hr].
Defined.

(** X8: the fetcher never raises; what it returns is the empty dict
    exactly when the provider raised, and otherwise a dict with exactly
    the seven field names. *)
Theorem fetcher_outcome
  (provider_info : string → result (gmap string pyval)) (ticker : string) :
  ∃ m, get_fundamental_data provider_info ticker = Ok m ∧
       (m = ∅ ↔ ∃ e, provider_info ticker = Raise e) ∧
       (m ≠ ∅ → dom m = list_to_set METRIC_FIELDS).
Proof.
  destruct (provider_info ticker) as [info|e] eqn:Hp.
  - exists (fetched info).
    split; [apply get_fundamental_data_ok; exact Hp |].
    assert (Hne : fetched info ≠ ∅).
    { intros He. pose proof (size_fetched info) as Hs. rewrite He in Hs.
      rewrite map_size_empty in Hs. discriminate. }
    split; [split; [intros He; contradiction | intros [e [=]]] |].
    intros _. apply dom_fetched.
  - exists ∅. split; [apply get_fundamental_data_raise with e; exact Hp |].
    split; [split; eauto | intros Hne; contradiction].
Qed.

(** X9: a record with none of the scored fields is not reported as
    unavailable: every ratio takes its sentinel, the scores are -1 but
    for profitability (0), the overall score is -5/6, and the
    recommendation is SELL. *)
Theorem empty_record_sells
  (provider_info : string → result (gmap string pyval)) (t : string)
  (info : gmap string pyval) :
  provider_info t = Ok info →
  (∀ k, k ∈ SCORED_PROVIDER_FIELDS → info !! k = None) →
  ∃ r, analyze_stock provider_info t = Ok (Some r) ∧
       scores r = score_set (-1) (-1) (-1) (-1) 0 (-1) ∧
       overall_score r = mean6 (-5) ∧
       recommendation r = "SELL"%string.
Proof.
  intros Hp Hk.
  rewrite (analyze_stock_fetched _ _ _ (get_fundamental_data_ok _ _ _ Hp)).
  rewrite size_fetched. change (7 =? 0)%nat with false. cbv iota.
  unfold score_and_assemble.
  assert (Hf : ∀ dy, calculate_fundamental_score
            (metric_set float_inf float_inf float_inf (PyFloat 0) (PyFloat 0)
                        (PyFloat 0) dy) =
            Ok (mean6 (-5), score_set (-1) (-1) (-1) (-1) 0 (-1)))
    by (intros dy; vm_compute; reflexivity).
  unfold fetched.
  rewrite !(dict_get_absent info) by (apply Hk; unfold SCORED_PROVIDER_FIELDS; in_list).
  rewrite Hf, bind_Ok.
  replace (get_recommendation (PyFloat (mean6 (-5)))) with (Ok "SELL"%string)
    by (vm_compute; reflexivity).
  rewrite bind_Ok. eexists. split; [reflexivity |]. repeat split.
Qed.

Lemma empty_record_sells_witness :
  (λ _ : string, Ok (∅ : gmap string pyval)) "ZZZZ"%string = Ok ∅ ∧
  (∀ k, k ∈ SCORED_PROVIDER_FIELDS → (∅ : gmap string pyval) !! k = None) ∧
  ∃ r, analyze_stock (λ _, Ok ∅) "ZZZZ" = Ok (Some r) ∧
       scores r = score_set (-1) (-1) (-1) (-1) 0 (-1) ∧
       overall_score r = mean6 (-5) ∧
       recommendation r = "SELL"%string.
Proof.
  split; [reflexivity |].
  split; [intros k _; apply lookup_empty |].
  apply (empty_record_sells (λ _, Ok ∅) "ZZZZ" ∅ eq_refl).
  intros k _. apply lookup_empty.
Defined.

(** ** The order of binary64 and of Python numbers *)

Ltac sf_cases :=
  repeat match goal with
         | |- context [(?x ?= ?y)%Z] => destruct (Z.compare_spec x y)
         | |- context [Pos.compare_cont Eq ?x ?y] =>
             change (Pos.compare_cont Eq x y) with (Pos.compare x y);
             destruct (Pos.compare_spec x y)
         end.

Ltac sf_order :=
  unfold SFleb, SFltb, SFcompare;
  repeat match goal with
         | x : spec_float |- _ => destruct x as [[]|[]| |[] ? ?]
         end;
  try (intros; first [reflexivity | discriminate]);
  sf_cases; cbn [CompOpp];
  intros; first [reflexivity | discriminate | lia].

Lemma SFleb_trans a b c :
  SFleb a b = true → SFleb b c = true → SFleb a c = true.
Proof. sf_order. Qed.

Lemma SFleb_ltb_trans a b c :
  SFleb a b = true → SFltb b c = true → SFltb a c = true.
Proof. sf_order. Qed.

Lemma SFltb_leb_trans a b c :
  SFltb a b = true → SFleb b c = true → SFltb a c = true.
Proof. sf_order. Qed.

Lemma float_leb_trans (a b c : float) :
  (a <=? b)%float = true → (b <=? c)%float = true → (a <=? c)%float = true.
Proof. rewrite !leb_spec. apply SFleb_trans. Qed.

Lemma float_leb_ltb_trans (a b c : float) :
  (a <=? b)%float = true → (b <? c)%float = true → (a <? c)%float = true.
Proof. rewrite leb_spec, !ltb_spec. apply SFleb_ltb_trans. Qed.

Lemma float_ltb_leb_trans (a b c : float) :
  (a <? b)%float = true → (b <=? c)%float = true → (a <? c)%float = true.
Proof. rewrite leb_spec, !ltb_spec. apply SFltb_leb_trans. Qed.

(** The exact comparison of an int with a float is monotone in the int. *)
Lemma Z_compare_SF_mono z1 z2 x :
  z1 ≤ z2 →
  (cmp_is Lt (Z_compare_SF z2 x) = true → cmp_is Lt (Z_compare_SF z1 x) = true) ∧
  (cmp_is Gt (Z_compare_SF z1 x) = true → cmp_is Gt (Z_compare_SF z2 x) = true).
Proof.
  intros Hz. destruct x as [[]|[]| |s m e]; unfold Z_compare_SF, cmp_is;
    try (split; intros; first [assumption | discriminate]).
  - split; destruct (Z.compare_spec z1 0), (Z.compare_spec z2 0); intros;
      first [reflexivity | discriminate | lia].
  - split; destruct (Z.compare_spec z1 0), (Z.compare_spec z2 0); intros;
      first [reflexivity | discriminate | lia].
  - destruct (0 <=? e) eqn:He.
    + split;
        destruct (Z.compare_spec z1 ((if s then Z.neg m else Z.pos m) * 2 ^ e)),
          (Z.compare_spec z2 ((if s then Z.neg m else Z.pos m) * 2 ^ e));
        intros; first [reflexivity | discriminate | lia].
    + apply Z.leb_gt in He.
      assert (0 < 2 ^ (- e)) by (apply Z.pow_pos_nonneg; lia).
      split;
        destruct (Z.compare_spec (z1 * 2 ^ (- e)) (if s then Z.neg m else Z.pos m)),
          (Z.compare_spec (z2 * 2 ^ (- e)) (if s then Z.neg m else Z.pos m));
        intros; first [reflexivity | discriminate | nia].
Qed.

(** Below and above a float bound, along the order of same-kind numbers. *)
Lemma num_lt_below x y g :
  num_le_same x y = true →
  num_lt y (PyFloat g) = true → num_lt x (PyFloat g) = true.
Proof.
  destruct x as [a|a| |], y as [b|b| |]; try discriminate;
    unfold num_le_same, num_lt, py_lt.
  - apply float_leb_ltb_trans.
  - intros H%Z.leb_le. apply (Z_compare_SF_mono a b (Prim2SF g) H).
Qed.

Lemma num_lt_above x y g :
  num_le_same x y = true →
  num_lt (PyFloat g) x = true → num_lt (PyFloat g) y = true.
Proof.
  destruct x as [a|a| |], y as [b|b| |]; try discriminate;
    unfold num_le_same, num_lt, py_lt.
  - intros H1 H2. exact (float_ltb_leb_trans _ _ _ H2 H1).
  - intros H%Z.leb_le. apply (Z_compare_SF_mono a b (Prim2SF g) H).
Qed.

(** A valid binary64 mantissa has at most 53 bits, and exactly 53 above
    the least exponent. *)
Lemma digits2_pos_bounds m :
  2 ^ (Z.pos (digits2_pos m) - 1) ≤ Z.pos m < 2 ^ Z.pos (digits2_pos m).
Proof.
  induction m as [p IH|p IH|]; cbn [digits2_pos].
  - rewrite Pos2Z.inj_succ.
    replace (Z.succ (Z.pos (digits2_pos p)) - 1)
      with (Z.succ (Z.pos (digits2_pos p) - 1)) by lia.
    rewrite !Z.pow_succ_r by lia. lia.
  - rewrite Pos2Z.inj_succ.
    replace (Z.succ (Z.pos (digits2_pos p)) - 1)
      with (Z.succ (Z.pos (digits2_pos p) - 1)) by lia.
    rewrite !Z.pow_succ_r by lia. lia.
  - cbn. lia.
Qed.

Lemma valid_finite_bounds s m e :
  SpecFloat.valid_binary prec emax (S754_finite s m e) = true →
  Z.pos m < 2 ^ 53 ∧ (-1074 < e → 2 ^ 52 ≤ Z.pos m).
Proof.
  unfold SpecFloat.valid_binary, bounded, canonical_mantissa, fexp, emin,
    prec, emax.
  intros [H _]%andb_prop. apply Z.eqb_eq in H.
  pose proof (digits2_pos_bounds m) as [Hlo Hhi].
  set (d := Z.pos (digits2_pos m)) in *.
  assert (Hd : d ≤ 53) by lia.
  split.
  - apply Z.lt_le_trans with (2 ^ d); [exact Hhi |].
    apply Z.pow_le_mono_r; lia.
  - intros He. assert (d = 53) as -> by lia. exact Hlo.
Qed.

Lemma cap_compare_SF x :
  SpecFloat.valid_binary prec emax x = true →
  cmp_is Lt (Z_compare_SF 1000000000 x) =
  SFltb (S754_finite false 8388608000000000 (-23)) x.
Proof.
  destruct x as [[]|[]| |[] m e]; try reflexivity.
  - intros _. unfold Z_compare_SF, SFltb, SFcompare, cmp_is.
    destruct (0 <=? e) eqn:He.
    + apply Z.leb_le in He.
      assert (0 < 2 ^ e) by (apply Z.pow_pos_nonneg; lia).
      destruct (Z.compare_spec 1000000000 (Z.neg m * 2 ^ e));
        try reflexivity; nia.
    + apply Z.leb_gt in He.
      assert (0 < 2 ^ (- e)) by (apply Z.pow_pos_nonneg; lia).
      destruct (Z.compare_spec (1000000000 * 2 ^ (- e)) (Z.neg m));
        try reflexivity; nia.
  - intros [Hhi Hlo]%valid_finite_bounds.
    unfold Z_compare_SF, SFltb, SFcompare, cmp_is.
    change (Pos.compare_cont Eq 8388608000000000 m)
      with (Pos.compare 8388608000000000 m).
    destruct (Z.compare_spec (-23) e) as [<- | He | He].
    + change (0 <=? -23) with false. change (- (-23)) with 23. cbv iota.
      change (1000000000 * 2 ^ 23) with (Z.pos 8388608000000000).
      rewrite Pos2Z.inj_compare. reflexivity.
    + specialize (Hlo ltac:(lia)).
      change (2 ^ 52) with 4503599627370496 in Hlo.
      destruct (0 <=? e) eqn:He0.
      * apply Z.leb_le in He0.
        assert (1 ≤ 2 ^ e) by (apply (Z.pow_le_mono_r 2 0 e); lia).
        destruct (Z.compare_spec 1000000000 (Z.pos m * 2 ^ e));
          try reflexivity; exfalso; nia.
      * apply Z.leb_gt in He0.
        assert (2 ^ (- e) ≤ 2 ^ 22) by (apply Z.pow_le_mono_r; lia).
        assert (0 < 2 ^ (- e)) by (apply Z.pow_pos_nonneg; lia).
        change (2 ^ 22) with 4194304 in *.
        destruct (Z.compare_spec (1000000000 * 2 ^ (- e)) (Z.pos m));
          try reflexivity; exfalso; nia.
    + assert (He0 : (0 <=? e) = false) by (apply Z.leb_gt; lia). rewrite He0.
      assert (2 ^ 24 ≤ 2 ^ (- e)) by (apply Z.pow_le_mono_r; lia).
      change (2 ^ 24) with 16777216 in *.
      change (2 ^ 53) with 9007199254740992 in Hhi.
      destruct (Z.compare_spec (1000000000 * 2 ^ (- e)) (Z.pos m));
        try reflexivity; exfalso; nia.
Qed.

(** Python's exact comparison of the int 1,000,000,000 with a number is
    the comparison with the float 1e9. *)
Lemma num_lt_cap x :
  num_lt MIN_MARKET_CAP x = num_lt (PyFloat 1000000000) x.
Proof.
  destruct x as [f|z| |]; try reflexivity.
  - unfold num_lt, MIN_MARKET_CAP, py_lt, Z_compare_float.
    rewrite ltb_spec.
    change (Prim2SF 1000000000)
      with (S754_finite false 8388608000000000 (-23)).
    apply cap_compare_SF, Prim2SF_valid.
  - unfold num_lt, MIN_MARKET_CAP, py_lt, Z_compare_float.
    change (Prim2SF 1000000000)
      with (S754_finite false 8388608000000000 (-23)).
    unfold Z_compare_SF, cmp_is.
    change (0 <=? -23) with false. change (- (-23)) with 23. cbv iota.
    change (2 ^ 23) with 8388608.
    destruct (Z.compare_spec (z * 8388608) (Z.pos 8388608000000000)),
      (Z.ltb_spec 1000000000 z); first [reflexivity | lia].
Qed.

(** X10: the int bound of the size rule acts as the float 1e9: Python's
    exact comparison of 1,000,000,000 with a market capitalization, be it
    an int or any float, is the binary64 (or exact) comparison with 1e9,
    so the rule may be read with a float threshold like the other five. *)
Theorem size_threshold_as_float (x : pyval) :
  num_lt MIN_MARKET_CAP x = num_lt (PyFloat 1000000000) x ∧
  spec_size x = if num_lt (PyFloat 1000000000) x then 1 else -1.
Proof.
  split; [apply num_lt_cap |].
  unfold spec_size. fold MIN_MARKET_CAP. rewrite num_lt_cap. reflexivity.
Qed.

(** ** Better inputs, no worse outputs *)

Lemma not_true_is_false' (b : bool) : (b = true → False) → b = false.
Proof. destruct b; [intros H; destruct H; reflexivity | reflexivity]. Qed.

Lemma lower_is_better_anti g b x y :
  num_le_same x y = true →
  lower_is_better (PyFloat g) (PyFloat b) y ≤
  lower_is_better (PyFloat g) (PyFloat b) x.
Proof.
  intros H. unfold lower_is_better.
  destruct (num_lt y (PyFloat g)) eqn:Hy.
  - rewrite (num_lt_below x y g H Hy). lia.
  - destruct (num_lt x (PyFloat g)); [destruct (num_lt (PyFloat b) y); lia |].
    destruct (num_lt (PyFloat b) x) eqn:Hx.
    + rewrite (num_lt_above x y b H Hx). lia.
    + destruct (num_lt (PyFloat b) y); lia.
Qed.

Lemma higher_is_better_mono g b x y :
  num_le_same x y = true →
  higher_is_better (PyFloat g) (PyFloat b) x ≤
  higher_is_better (PyFloat g) (PyFloat b) y.
Proof.
  intros H. unfold higher_is_better.
  destruct (num_lt (PyFloat g) x) eqn:Hx.
  - rewrite (num_lt_above x y g H Hx). lia.
  - destruct (num_lt (PyFloat g) y); [destruct (num_lt x (PyFloat b)); lia |].
    destruct (num_lt y (PyFloat b)) eqn:Hy.
    + rewrite (num_lt_below x y b H Hy). lia.
    + destruct (num_lt x (PyFloat b)); lia.
Qed.

Lemma spec_size_mono x y :
  num_le_same x y = true → spec_size x ≤ spec_size y.
Proof.
  intros H. unfold spec_size. fold MIN_MARKET_CAP. rewrite !num_lt_cap.
  destruct (num_lt (PyFloat 1000000000) x) eqn:Hx.
  - rewrite (num_lt_above x y _ H Hx). lia.
  - destruct (num_lt (PyFloat 1000000000) y); lia.
Qed.

Lemma num_le_same_num_l x y : num_le_same x y = true → is_num x = true.
Proof. destruct x, y; try discriminate; reflexivity. Qed.

Lemma num_le_same_num_r x y : num_le_same x y = true → is_num y = true.
Proof. destruct x, y; try discriminate; reflexivity. Qed.

Lemma field_is_num m k :
  is_num (field m k) = true → offence m k = None.
Proof.
  unfold field, offence. destruct (m !! k) as [v|]; simpl.
  - intros ->. reflexivity.
  - discriminate.
Qed.

Lemma mean6_mono a b :
  -6 ≤ a → a ≤ b → b ≤ 6 → (mean6 a <=? mean6 b)%float = true.
Proof.
  intros Ha Hab Hb.
  assert (Ha' : -6 ≤ a ≤ 6) by lia. assert (Hb' : -6 ≤ b ≤ 6) by lia.
  apply range_cases in Ha', Hb'.
  repeat (apply elem_of_cons in Ha' as [->|Ha']; [| try (inversion Ha'; fail)]);
    repeat (apply elem_of_cons in Hb' as [->|Hb']; [| try (inversion Hb'; fail)]);
    first [lia | vm_compute; reflexivity].
Qed.

Lemma recommend_sum_mono a b :
  a ≤ b → label_rank (recommend_sum a) ≤ label_rank (recommend_sum b).
Proof.
  intros H. unfold recommend_sum.
  destruct (Z.leb_spec 3 a), (Z.leb_spec 3 b), (Z.leb_spec a (-2)),
    (Z.leb_spec b (-2)); cbn; lia.
Qed.

Lemma score_set_le a1 a2 a3 a4 a5 a6 b1 b2 b3 b4 b5 b6 k v w :
  a1 ≤ b1 → a2 ≤ b2 → a3 ≤ b3 → a4 ≤ b4 → a5 ≤ b5 → a6 ≤ b6 →
  score_set a1 a2 a3 a4 a5 a6 !! k = Some v →
  score_set b1 b2 b3 b4 b5 b6 !! k = Some w →
  v ≤ w.
Proof.
  intros H1 H2 H3 H4 H5 H6 Hv Hw.
  pose proof (lookup_score_set b1 b2 b3 b4 b5 b6) as E. cbv zeta in E.
  destruct E as (E1 & E2 & E3 & E4 & E5 & E6).
  unfold score_set in Hv.
  repeat (apply lookup_insert_Some in Hv as [[<- <-] | [_ Hv]];
          [first [rewrite E1 in Hw | rewrite E2 in Hw | rewrite E3 in Hw
                 | rewrite E4 in Hw | rewrite E5 in Hw | rewrite E6 in Hw];
           injection Hw as <-; assumption |]).
  rewrite lookup_empty in Hv. discriminate.
Qed.

(** X11: better inputs never give a worse verdict.  If a second
    MetricSet is no worse than a first in any scored field (each field
    compared between two floats or between two ints), then the scorer
    returns on both, no category score of the second is lower, its
    overall score is not lower, and its recommendation is not worse
    (SELL below HOLD below BUY). *)
Theorem better_metrics_no_worse (m1 m2 : gmap string pyval) :
  no_worse m1 m2 = true →
  ∃ o1 s1 r1 o2 s2 r2,
    calculate_fundamental_score m1 = Ok (o1, s1) ∧
    calculate_fundamental_score m2 = Ok (o2, s2) ∧
    get_recommendation (PyFloat o1) = Ok r1 ∧
    get_recommendation (PyFloat o2) = Ok r2 ∧
    (∀ k v w, s1 !! k = Some v → s2 !! k = Some w → v ≤ w) ∧
    (o1 <=? o2)%float = true ∧
    label_rank r1 ≤ label_rank r2.
Proof.
  unfold no_worse. rewrite !andb_true_iff.
  intros (((((Hpe & Hpb) & Hde) & Hcr) & Hpm) & Hmc).
  pose proof (calculate_first_offence m1) as Ho1.
  pose proof (calculate_first_offence m2) as Ho2.
  unfold first_offence, SCORED_FIELDS in Ho1, Ho2. cbn [foldr] in Ho1, Ho2.
  rewrite !field_is_num in Ho1
    by first [eapply num_le_same_num_l; eassumption
             | eapply num_le_same_num_r; eassumption].
  rewrite !field_is_num in Ho2
    by first [eapply num_le_same_num_l; eassumption
             | eapply num_le_same_num_r; eassumption].
  pose proof (lower_is_better_anti 15 30 _ _ Hpe) as L1.
  pose proof (lower_is_better_anti 3 6 _ _ Hpb) as L2.
  pose proof (lower_is_better_anti 2 3 _ _ Hde) as L3.
  pose proof (higher_is_better_mono 1.5 1 _ _ Hcr) as L4.
  pose proof (higher_is_better_mono 0.1 0 _ _ Hpm) as L5.
  pose proof (spec_size_mono _ _ Hmc) as L6.
  fold spec_pe in L1. fold spec_pb in L2. fold spec_debt in L3.
  fold spec_liquidity in L4. fold spec_profitability in L5.
  assert (Ra : -6 ≤ spec_pe (field m1 "pe_ratio") + spec_pb (field m1 "pb_ratio") +
      spec_debt (field m1 "debt_to_equity") +
      spec_liquidity (field m1 "current_ratio") +
      spec_profitability (field m1 "profit_margin") +
      spec_size (field m1 "market_cap") ≤ 6).
  { apply sum_range; first [apply lower_is_better_ternary
      | apply higher_is_better_ternary | apply spec_size_ternary]. }
  assert (Rb : -6 ≤ spec_pe (field m2 "pe_ratio") + spec_pb (field m2 "pb_ratio") +
      spec_debt (field m2 "debt_to_equity") +
      spec_liquidity (field m2 "current_ratio") +
      spec_profitability (field m2 "profit_margin") +
      spec_size (field m2 "market_cap") ≤ 6).
  { apply sum_range; first [apply lower_is_better_ternary
      | apply higher_is_better_ternary | apply spec_size_ternary]. }
  eexists _, _, _, _, _, _.
  split; [exact Ho1 |]. split; [exact Ho2 |].
  split; [exact (recommendation_of_mean6 _ Ra) |].
  split; [exact (recommendation_of_mean6 _ Rb) |].
  split; [intros k v w; apply score_set_le; assumption |].
  split; [apply mean6_mono; lia | apply recommend_sum_mono; lia].
Qed.

(** Two MetricSets of floats, the second lower in price-to-earnings and
    higher in margin and size. *)
Lemma better_metrics_no_worse_witness :
  no_worse neutral_metrics
    (metric_set (PyFloat 12) (PyFloat 4.5) (PyFloat 2.5) (PyFloat 1.2)
                (PyFloat 0.25) (PyInt 7000000000) (PyFloat 0)) = true ∧
  ∃ o1 s1 r1 o2 s2 r2,
    calculate_fundamental_score neutral_metrics = Ok (o1, s1) ∧
    calculate_fundamental_score
      (metric_set (PyFloat 12) (PyFloat 4.5) (PyFloat 2.5) (PyFloat 1.2)
                  (PyFloat 0.25) (PyInt 7000000000) (PyFloat 0)) = Ok (o2, s2) ∧
    get_recommendation (PyFloat o1) = Ok r1 ∧
    get_recommendation (PyFloat o2) = Ok r2 ∧
    (∀ k v w, s1 !! k = Some v → s2 !! k = Some w → v ≤ w) ∧
    (o1 <=? o2)%float = true ∧
    label_rank r1 ≤ label_rank r2.
Proof.
  split; [reflexivity |].
  apply (better_metrics_no_worse neutral_metrics). reflexivity.
Defined.

(** X12: the recommender is monotone: of two float scores, the higher
    never gets the worse label. *)
Theorem recommendation_monotone (f1 f2 : float) :
  (f1 <=? f2)%float = true →
  ∃ r1 r2, get_recommendation (PyFloat f1) = Ok r1 ∧
           get_recommendation (PyFloat f2) = Ok r2 ∧
           label_rank r1 ≤ label_rank r2.
Proof.
  intros H. rewrite !get_recommendation_float. eexists _, _.
  split; [reflexivity |]. split; [reflexivity |].
  destruct (0.5 <=? f1)%float eqn:B1.
  - rewrite (float_leb_trans _ _ _ B1 H). reflexivity.
  - destruct (f2 <=? -0.3)%float eqn:S2.
    + rewrite (float_leb_trans _ _ _ H S2), (sell_not_buy f2 S2). reflexivity.
    + destruct (f1 <=? -0.3)%float, (0.5 <=? f2)%float; cbn; lia.
Qed.

Lemma recommendation_monotone_witness :
  (-0.5 <=? 0.75)%float = true ∧
  ∃ r1 r2, get_recommendation (PyFloat (-0.5)) = Ok r1 ∧
           get_recommendation (PyFloat 0.75) = Ok r2 ∧
           label_rank r1 ≤ label_rank r2.
Proof.
  split; [reflexivity | apply (recommendation_monotone (-0.5) 0.75); reflexivity].
Defined.


(** ** The Streamlit page *)

Lemma comprehension_fmap {A B} (f : A → result B) (g : A → B) (l : list A) :
  (∀ x, x ∈ l → f x = Ok (g x)) → comprehension f l = Ok (g <$> l).
Proof.
  induction l as [|x l IH]; intros H; cbn [comprehension fmap list_fmap].
  - reflexivity.
  - rewrite (H x) by apply list_elem_of_here. rewrite bind_Ok.
    rewrite IH by (intros y Hy; apply H, list_elem_of_further, Hy).
    reflexivity.
Qed.

Lemma label_getitem_dom labels k :
  k ∈ dom (list_to_map labels : gmap string string) →
  label_getitem labels k = Ok (label_of labels k).
Proof.
  intros [l Hl]%elem_of_dom. unfold label_getitem, label_of, getitem.
  rewrite Hl. reflexivity.
Qed.

Section PageProperties.

Variable provider_info : string → result (gmap string pyval).
Variable str_upper : string → string.
Variable format_2f : float → string.
Variable dict_items : ∀ V, gmap string V → list (string * V).

(** Python iterates over a dict entry by entry, each entry once. *)
Hypothesis dict_items_perm :
  ∀ V (d : gmap string V), dict_items V d ≡ₚ map_to_list d.

Lemma dict_keys_dom {V} (d : gmap string V) k :
  k ∈ dict_keys dict_items d → k ∈ dom d.
Proof.
  unfold dict_keys. rewrite (dict_items_perm V d).
  intros [[k' v] [-> Hkv]]%list_elem_of_fmap.
  apply elem_of_map_to_list in Hkv. exact (elem_of_dom_2 _ _ _ Hkv).
Qed.

(** Every key of a dict whose keys a label table has gets its label. *)
Lemma labels_cover {V} labels (d : gmap string V) :
  dom d ⊆ dom (list_to_map labels : gmap string string) →
  comprehension (label_getitem labels) (dict_keys dict_items d) =
  Ok (label_of labels <$> dict_keys dict_items d).
Proof.
  intros Hsub. apply comprehension_fmap. intros k Hk.
  apply label_getitem_dom, Hsub, dict_keys_dom, Hk.
Qed.

End PageProperties.

Lemma dom_label_tables :
  dom (list_to_map METRIC_LABELS : gmap string string) =
    list_to_set METRIC_FIELDS ∧
  dom (list_to_map SCORE_LABELS : gmap string string) = SCORE_CATEGORIES.
Proof. split; apply dom_list_to_map_L. Qed.

(** X13: what the page shows.  Without a click: the title and the two
    input widgets.  With a click, for the upper-cased ticker: the error
    banner when the provider raised; the header, the recommendation, the
    score, and the two tables when the analysis returned, every key of
    the metrics and of the scores finding its label (no KeyError); and,
    when a scored field of the record holds no number, the scorer's
    TypeError with nothing more rendered. *)
Theorem page_outcome
  (provider_info : string → result (gmap string pyval))
  (str_upper : string → string) (format_2f : float → string)
  (dict_items : ∀ V, gmap string V → list (string * V))
  (typed : option string) (clicked : bool) :
  (∀ V (d : gmap string V), dict_items V d ≡ₚ map_to_list d) →
  let t := str_upper (default "AAPL"%string typed) in
  let head := [ st_title "Stock Fundamental Analysis";
                st_text_input "Enter Stock Ticker:" "AAPL";
                st_button "Analyze" ] in
  let ui := create_streamlit_ui provider_info str_upper format_2f dict_items
              typed clicked in
  if clicked then
    match provider_info t with
    | Raise _ =>
        ui = (head ++ [st_error ("Could not fetch data for " ++ t)], Ok tt)
    | Ok info =>
        if provider_scorable info then
          ∃ r, analyze_stock provider_info t = Ok (Some r) ∧
            ui = (head ++
                  [ st_header ("Analysis Results for " ++ t);
                    st_subheader ("Recommendation: " ++ recommendation r);
                    st_metric "Overall Score" (format_2f (overall_score r));
                    st_subheader "Fundamental Metrics";
                    st_table
                      [ ("Metric"%string,
                         PyStr <$> (label_of METRIC_LABELS <$>
                                    dict_keys dict_items (metrics r)));
                        ("Value"%string, dict_values dict_items (metrics r)) ];
                    st_subheader "Individual Scores";
                    st_table
                      [ ("Analysis Type"%string,
                         PyStr <$> (label_of SCORE_LABELS <$>
                                    dict_keys dict_items (scores r)));
                        ("Score"%string,
                         PyInt <$> dict_values dict_items (scores r)) ] ],
                  Ok tt)
        else ui = (head, Raise TypeError)
    end
  else ui = (head, Ok tt).
Proof.
  intros Hperm. cbv zeta. unfold create_streamlit_ui.
  cbn [mbind page_bind render run mret page_ret].
  generalize (str_upper (default "AAPL"%string typed)). intros t.
  destruct clicked; [| reflexivity].
  destruct (provider_info t) as [info|e] eqn:Hp.
  - pose proof (analyze_stock_record _ _ _ Hp) as Hrec.
    destruct (provider_scorable info) eqn:Hs.
    + destruct (score_and_assemble_scorable t info Hs) as (r & Ha).
      rewrite <- Hrec in Ha. exists r. split; [exact Ha |].
      destruct (analysis_result_shape _ _ _ Ha)
        as [[info' Hm] (s1 & s2 & s3 & s4 & s5 & s6 & Hsc)].
      destruct dom_label_tables as [Lm Ls].
      pose proof (labels_cover dict_items Hperm METRIC_LABELS (metrics r)) as Cm.
      rewrite Hm, dom_fetched, Lm in Cm. rewrite <- Hm in Cm.
      specialize (Cm (reflexivity _)).
      pose proof (labels_cover dict_items Hperm SCORE_LABELS (scores r)) as Cs.
      rewrite Hsc, dom_score_set, Ls in Cs. rewrite <- Hsc in Cs.
      specialize (Cs (reflexivity _)).
      rewrite Ha, Cm, Cs. reflexivity.
    + rewrite Hrec, (score_and_assemble_unscorable t info Hs). reflexivity.
  - rewrite (analyze_stock_raised _ _ _ Hp). reflexivity.
Qed.

Lemma page_outcome_witness :
  (∀ V (d : gmap string V), map_to_list d ≡ₚ map_to_list d) ∧
  example_page one_ticker_provider (Some "NOPE"%string) true =
    ([ st_title "Stock Fundamental Analysis";
       st_text_input "Enter Stock Ticker:" "AAPL";
       st_button "Analyze";
       st_error "Could not fetch data for NOPE" ], Ok tt).
Proof.
  split; [reflexivity |].
  exact (page_outcome one_ticker_provider (λ s, s) (λ _, "0.00"%string)
           (λ V, map_to_list) (Some "NOPE"%string) true
           (λ V d, reflexivity _)).
Defined.

Lemma zip_fmap_items {V} (f : string → string) (l : list (string * V)) :
  zip (f <$> l.*1) (l.*2) = (λ kv, (f kv.1, kv.2)) <$> l.
Proof.
  induction l as [|[k v] l IH]; [reflexivity |].
  cbn [fmap list_fmap zip zip_with fst snd] in *. rewrite IH. reflexivity.
Qed.

Lemma map_to_list_metric_set pe pb de cr pm mc dy :
  map_to_list (metric_set pe pb de cr pm mc dy) ≡ₚ
  [ ("pe_ratio"%string, pe); ("pb_ratio"%string, pb);
    ("debt_to_equity"%string, de); ("current_ratio"%string, cr);
    ("profit_margin"%string, pm); ("market_cap"%string, mc);
    ("dividend_yield"%string, dy) ].
Proof.
  unfold metric_set. apply map_to_list_to_map.
  cbn [fmap list_fmap fst]. apply (bool_decide_unpack _). vm_compute.
  reflexivity.
Qed.

Lemma map_to_list_score_set s1 s2 s3 s4 s5 s6 :
  map_to_list (score_set s1 s2 s3 s4 s5 s6) ≡ₚ
  [ ("pe"%string, s1); ("pb"%string, s2); ("debt"%string, s3);
    ("liquidity"%string, s4); ("profitability"%string, s5);
    ("size"%string, s6) ].
Proof.
  rewrite <- (reverse_Permutation [ ("pe"%string, s1); ("pb"%string, s2);
    ("debt"%string, s3); ("liquidity"%string, s4);
    ("profitability"%string, s5); ("size"%string, s6) ]).
  change (score_set s1 s2 s3 s4 s5 s6)
    with (list_to_map (reverse [ ("pe"%string, s1); ("pb"%string, s2);
      ("debt"%string, s3); ("liquidity"%string, s4);
      ("profitability"%string, s5); ("size"%string, s6) ]) : gmap string Z).
  apply map_to_list_to_map.
  cbn. apply (bool_decide_unpack _). vm_compute. reflexivity.
Qed.

(** X14: the two tables are complete and aligned.  Whatever the order
    in which the dicts are iterated, the rows of the metrics table are
    the seven entries of the metric label table, each label beside the
    fetched value of its field, and the rows of the scores table are the
    six entries of the score label table, each label beside its score. *)
Theorem page_tables
  (provider_info : string → result (gmap string pyval))
  (dict_items : ∀ V, gmap string V → list (string * V))
  (t : string) (r : AnalysisResult) :
  (∀ V (d : gmap string V), dict_items V d ≡ₚ map_to_list d) →
  analyze_stock provider_info t = Ok (Some r) →
  zip (label_of METRIC_LABELS <$> dict_keys dict_items (metrics r))
      (dict_values dict_items (metrics r)) ≡ₚ
    (λ kl, (kl.2, field (metrics r) kl.1)) <$> METRIC_LABELS ∧
  zip (label_of SCORE_LABELS <$> dict_keys dict_items (scores r))
      (dict_values dict_items (scores r)) ≡ₚ
    (λ kl, (kl.2, scores r !!! kl.1)) <$> SCORE_LABELS.
Proof.
  intros Hperm Ha.
  destruct (analysis_result_shape _ _ _ Ha)
    as [[info Hm] (s1 & s2 & s3 & s4 & s5 & s6 & Hs)].
  unfold dict_keys, dict_values. rewrite !zip_fmap_items, !Hperm, Hm, Hs.
  split.
  - unfold fetched at 1. rewrite map_to_list_metric_set.
    destruct (lookup_metric_set
      (dict_get info "forwardPE" float_inf)
      (dict_get info "priceToBook" float_inf)
      (dict_get info "debtToEquity" float_inf)
      (dict_get info "currentRatio" (PyFloat 0.0))
      (dict_get info "profitMargins" (PyFloat 0.0))
      (dict_get info "marketCap" (PyFloat 0.0))
      (dict_get info "dividendYield" (PyFloat 0.0)))
      as (E1 & E2 & E3 & E4 & E5 & E6 & E7).
    fold (fetched info) in E1, E2, E3, E4, E5, E6, E7.
    unfold METRIC_LABELS, field. cbn [fmap list_fmap fst snd].
    rewrite E1, E2, E3, E4, E5, E6, E7. reflexivity.
  - rewrite map_to_list_score_set.
    pose proof (lookup_score_set s1 s2 s3 s4 s5 s6) as E. cbv zeta in E.
    destruct E as (E1 & E2 & E3 & E4 & E5 & E6).
    unfold SCORE_LABELS. cbn [fmap list_fmap fst snd].
    rewrite !lookup_total_alt, E1, E2, E3, E4, E5, E6. reflexivity.
Qed.

Lemma page_tables_witness :
  ∃ r, analyze_stock one_ticker_provider "ACME" = Ok (Some r) ∧
    zip (label_of SCORE_LABELS <$> dict_keys (λ V, map_to_list) (scores r))
        (dict_values (λ V, map_to_list) (scores r)) ≡ₚ
      (λ kl, (kl.2, scores r !!! kl.1)) <$> SCORE_LABELS.
Proof.
  destruct analyze_stock_acme as (r & Ha & _). exists r.
  split; [exact Ha |].
  exact (proj2 (page_tables one_ticker_provider (λ V, map_to_list) "ACME" r
                  (λ V d, reflexivity _) Ha)).
Defined.
